(** * graphlearn.python.nn.tf.data.dataset

    A shallow embedding of the [Dataset] class of
    [graphlearn/python/nn/tf/data/dataset.py]: the schema declarers
    ([_data_types_and_shapes], [_raw_flatten_types_and_shapes],
    [_batchgraph_types_and_shapes], [_batchgraph_flatten_types_and_shapes]),
    the two generators, and the reconstructors [get_egograph] and
    [get_batchgraph].

    Python objects are records, exceptions are values of [exn] carried by the
    [result] monad, [self] is passed explicitly and the one attribute written
    after construction started ([pos_size]) is threaded through the declarer
    that writes it.  The collaborators the file imports (the query DAG, the
    raw dataset, TensorFlow, the batch graph classes) appear as records of
    the operations the file calls on them. *)

From stdpp Require Import base list strings option.

Set Default Proof Using "Type".

(** ** Exceptions and results *)

Inductive exn :=
  | ValueError (msg : string)
  | AttributeError (attr : string)
  | KeyError (key : string)
  | IndexError
  | TypeError
  | OutOfRangeError
  | UnknownAlias (alias : string).

Inductive result (A : Type) :=
  | Ok (a : A)
  | Raise (e : exn).
Arguments Ok {A} a.
Arguments Raise {A} e.

#[global] Instance result_ret : MRet result := fun A a => Ok a.
#[global] Instance result_bind : MBind result :=
  fun A B f m => match m with Ok a => f a | Raise e => Raise e end.
#[global] Instance result_fmap : FMap result :=
  fun A B f m => match m with Ok a => Ok (f a) | Raise e => Raise e end.

(** ** TensorFlow types, shapes and symbolic tensors *)

Inductive DType := tf_int32 | tf_int64 | tf_float32 | tf_float64 | tf_string | tf_bool.

#[global] Instance DType_eq_dec : EqDecision DType.
Proof. solve_decision. Defined.

(** A dimension is bound ([Some n]) or unbound ([None], Python's [None]). *)
Abbreviation Dim := (option nat).
Abbreviation TensorShape := (list (option nat)).

(** One tensor of the tuple [Iterator.get_next()] returns: its position in
    the tuple with the declared type and shape. *)
Record Tensor := { tensor_pos : nat; tensor_dtype : DType; tensor_shape : TensorShape }.

(** ** Python dictionaries, in key order *)

Abbreviation PyDict V := (list (string * V)).

Definition dict_keys {V} (d : PyDict V) : list string := map fst d.

Fixpoint dict_getitem {V} (d : PyDict V) (key : string) : result V :=
  match d with
  | [] => Raise (KeyError key)
  | (k, v) :: d' => if bool_decide (k = key) then Ok v else dict_getitem d' key
  end.

(** ** Decoders and field masks *)

(** Opaque handle of a decoder's feature spec. *)
Record FeatureSpec := { feature_spec_id : nat }.

Record Decoder := {
  int_attr_num : nat;
  float_attr_num : nat;
  string_attr_num : nat;
  labeled : bool;
  weighted : bool;
  feature_spec : FeatureSpec }.

(** The three boolean vectors [get_mask] returns: five feature slots
    (int attrs, float attrs, string attrs, labels, weights), two id slots
    (ids, dst ids), three sparse slots (offsets, indices, dense shape). *)
Record FeatMask := {
  m_int_attrs : bool; m_float_attrs : bool; m_string_attrs : bool;
  m_labels : bool; m_weights : bool }.
Record IdMask := { m_ids : bool; m_dst_ids : bool }.
Record SparseMask := { m_offsets : bool; m_indices : bool; m_dense_shape : bool }.

Definition Masks : Type := FeatMask * IdMask * SparseMask.

Definition feat_mask_list (m : FeatMask) : list bool :=
  [m_int_attrs m; m_float_attrs m; m_string_attrs m; m_labels m; m_weights m].
Definition id_mask_list (m : IdMask) : list bool := [m_ids m; m_dst_ids m].
Definition sparse_mask_list (m : SparseMask) : list bool :=
  [m_offsets m; m_indices m; m_dense_shape m].

(** [np.array(xs)[mask]] for a boolean [mask] as long as [xs]. *)
Fixpoint np_select {A} (xs : list A) (mask : list bool) : list A :=
  match xs, mask with
  | x :: xs', b :: mask' =>
      if b then x :: np_select xs' mask' else np_select xs' mask'
  | _, _ => []
  end.

(** ** The query DAG *)

(** The shape tuple of a DagNode.  A query node always carries the batch
    dimension, so the tuple has a first entry; [shape_last] is [shape[-1]]. *)
Record Shape := { shape_first : nat; shape_rest : list nat }.

Definition shape_last (s : Shape) : nat := List.last (shape_rest s) (shape_first s).

(** A node of the query DAG with the attributes the dataset reads.
    [is_TraverseEdgeDagNode n] is [isinstance(n, TraverseEdgeDagNode)].
    Downstreams are the downstream node objects themselves. *)
Unset Elimination Schemes.
Inductive DagNode := MkDagNode {
  get_alias : string;
  is_TraverseEdgeDagNode : bool;
  node_type : string;
  shape : Shape;
  decoder : Decoder;
  sparse : bool;
  pos_downstreams : list DagNode;
  neg_downstreams : list DagNode }.
Set Elimination Schemes.

(** The query: alias resolution, the aliases it lists, its node and edge
    types, and the decoder its graph keeps per node type. *)
Record Dag := {
  dag_lookup : string -> option DagNode;
  list_alias : list string;
  node_types : list string;
  dag_edge_types : list string;
  graph_get_node_decoder : string -> Decoder }.

(** [dag.get_node(alias)]; an alias the query does not hold is an error. *)
Definition get_node (dag : Dag) (alias : string) : result DagNode :=
  match dag_lookup dag alias with
  | Some n => Ok n
  | None => Raise (UnknownAlias alias)
  end.

(** [node in nodes] for DagNode objects: a node object is identified by its
    alias, which names one node of the query. *)
Definition node_in (node : DagNode) (nodes : list DagNode) : bool :=
  existsb (fun n => bool_decide (get_alias n = get_alias node)) nodes.

(** Modelled from the spec: the three role keys of [SubKeys]
    (graphlearn.python.nn.dataset is not part of the sources): positive
    source, positive destination and negative destination, three different
    aliases. *)
Module SubKeys.
Definition POS_SRC : string := "src".
Definition POS_DST : string := "dst".
Definition NEG_DST : string := "neg_dst".
End SubKeys.

(** ** The raw dataset ([self._rds]) *)

(** Opaque [Data] object of the data dict. *)
Record Data := { data_tensors : list Tensor }.

(** What the dataset reads of the raw dataset without pulling from it: the
    keys of its mask dictionary in enumeration order, the mask resolver and
    the builder of the data dict. *)
Record RawDataset := {
  masks_keys : list string;
  get_mask : Decoder -> bool -> bool -> Masks;
  build_data_dict : list Tensor -> PyDict Data }.

(** Opaque handle of the induce function. *)
Record InduceFunc := { induce_func_id : nat }.

(** ** The batch graph classes *)

Inductive GraphClass := BatchGraph | HeteroBatchGraph.

(** The node schema handed to [from_tensors]: one [(type, decoder)] pair for
    [BatchGraph], a list of them for [HeteroBatchGraph]. *)
Inductive NodeSchema :=
  | SingleSchema (s : string * Decoder)
  | TypedSchema (l : list (string * Decoder)).

(** The edge schema: [None], or a list of [(edge type, None)] pairs. *)
Abbreviation EdgeSchema := (option (list (string * option Decoder))).

(** The object [graph.from_tensors(tensors, node_schema, edge_schema,
    additional_keys=...)] returns, as the record of the class and the
    arguments of the call. *)
Record BatchGraphObj := from_tensors {
  bg_class : GraphClass;
  bg_tensors : list Tensor;
  bg_node_schema : NodeSchema;
  bg_edge_schema : EdgeSchema;
  bg_additional_keys : list string }.

(** The object [EgoGraph(...)] returns, as the record of its six arguments. *)
Record EgoGraphObj := EgoGraph {
  ego_src : Data;
  ego_nbr_nodes : list Data;
  ego_node_schema : list (string * FeatureSpec);
  ego_nbr_nums : list nat;
  ego_nbr_edges : list Data;
  ego_edge_schema : list (string * FeatureSpec) }.

(** ** The dataset object *)

Inductive GeneratorKind := raw_flatten_generator | batchgraph_flatten_generator.

(** The iterator [tf.data.Dataset.from_generator(generator, types, shapes)
    .make_initializable_iterator()] returns. *)
Record Iterator := {
  generator : GeneratorKind;
  output_types : list DType;
  output_shapes : list TensorShape }.

(** [iterator.get_next()]: one symbolic tensor per declared field. *)
Definition get_next (it : Iterator) : list Tensor :=
  imap (fun i ts => {| tensor_pos := i; tensor_dtype := fst ts; tensor_shape := snd ts |})
       (zip (output_types it) (output_shapes it)).

(** The attributes of [self].  [pos_size] is [None] until
    [_batchgraph_flatten_types_and_shapes] writes it; [_iterator] and
    [_values] are filled last by [__init__]. *)
Record Dataset := {
  _dag : Dag;
  _induce_func : option InduceFunc;
  _additional_spec : option (PyDict (DType * TensorShape));
  _additional_keys : list string;
  edge_types : list string;
  _rds : RawDataset;
  pos_size : option nat;
  _iterator : option Iterator;
  _values : list Tensor }.

Definition set_pos_size (self : Dataset) (n : nat) : Dataset :=
  {| _dag := _dag self; _induce_func := _induce_func self;
     _additional_spec := _additional_spec self;
     _additional_keys := _additional_keys self;
     edge_types := edge_types self; _rds := _rds self;
     pos_size := Some n; _iterator := _iterator self; _values := _values self |}.

Definition set_iterator (self : Dataset) (it : Iterator) : Dataset :=
  {| _dag := _dag self; _induce_func := _induce_func self;
     _additional_spec := _additional_spec self;
     _additional_keys := _additional_keys self;
     edge_types := edge_types self; _rds := _rds self;
     pos_size := pos_size self; _iterator := Some it; _values := get_next it |}.

(** ** Schema declarers *)

(** The ten field slots in the order of the three mask vectors. *)
Definition feat_types : list DType := [tf_int64; tf_float32; tf_string; tf_int32; tf_float32].
Definition feat_shapes (node_decoder : Decoder) : list TensorShape :=
  [ [None; Some (int_attr_num node_decoder)];
    [None; Some (float_attr_num node_decoder)];
    [None; Some (string_attr_num node_decoder)];
    [None];
    [None] ].
Definition id_types : list DType := [tf_int64; tf_int64].
Definition id_shapes : list TensorShape := [ [None]; [None] ].
Definition sparse_types : list DType := [tf_int64; tf_int64; tf_int64].
Definition sparse_shapes : list TensorShape := [ [None]; [None; Some 2]; [None] ].

Definition _data_types_and_shapes (self : Dataset) (node_decoder : Decoder)
    (is_edge is_sparse : bool) : list DType * list TensorShape :=
  let '(feat_masks, id_masks, sparse_masks) :=
    get_mask (_rds self) node_decoder is_edge is_sparse in
  let feat_types := np_select feat_types (feat_mask_list feat_masks) in
  let feat_shapes := np_select (feat_shapes node_decoder) (feat_mask_list feat_masks) in
  let id_types := np_select id_types (id_mask_list id_masks) in
  let id_shapes := np_select id_shapes (id_mask_list id_masks) in
  let sparse_types := np_select sparse_types (sparse_mask_list sparse_masks) in
  let sparse_shapes := np_select sparse_shapes (sparse_mask_list sparse_masks) in
  (feat_types ++ id_types ++ sparse_types, feat_shapes ++ id_shapes ++ sparse_shapes).

(** One turn of the loop of [_raw_flatten_types_and_shapes]. *)
Definition raw_declare_alias (self : Dataset) (acc : list DType * list TensorShape)
    (alias : string) : result (list DType * list TensorShape) :=
  node ← get_node (_dag self) alias;
  let '(types, shapes) :=
    _data_types_and_shapes self (decoder node) (is_TraverseEdgeDagNode node) (sparse node) in
  Ok (fst acc ++ types, snd acc ++ shapes).

Fixpoint for_each {A B} (body : B -> A -> result B) (xs : list A) (acc : B) : result B :=
  match xs with
  | [] => Ok acc
  | x :: xs' => acc' ← body acc x; for_each body xs' acc'
  end.

Definition _raw_flatten_types_and_shapes (self : Dataset)
    : result (list DType * list TensorShape) :=
  for_each (raw_declare_alias self) (masks_keys (_rds self)) ([], []).

(** The bodies of the three loops of [_batchgraph_types_and_shapes]. *)
Definition declare_edge_index (out : list DType * list TensorShape) (edge : string)
    : list DType * list TensorShape :=
  (fst out ++ [tf_int32], snd out ++ [[Some 2; None]]).

Definition declare_node_type (self : Dataset) (out : list DType * list TensorShape)
    (node : string) : list DType * list TensorShape :=
  let '(node_types, node_shapes) :=
    _data_types_and_shapes self (graph_get_node_decoder (_dag self) node) false false in
  let out := (fst out ++ node_types, snd out ++ node_shapes) in
  (* graph_node_offsets *)
  (fst out ++ [tf_int64], snd out ++ [[None]]).

Definition declare_additional (self : Dataset) (out : list DType * list TensorShape)
    (key : string) : result (list DType * list TensorShape) :=
  match _additional_spec self with
  | None => Raise TypeError
  | Some spec =>
      ts ← dict_getitem spec key;
      Ok (fst out ++ [fst ts], snd out ++ [snd ts])
  end.

Definition _batchgraph_types_and_shapes (self : Dataset)
    : result (list DType * list TensorShape) :=
  let out : list DType * list TensorShape := ([], []) in
  (* edge index *)
  let out := fold_left declare_edge_index (edge_types self) out in
  (* nodes *)
  let out := fold_left (declare_node_type self) (node_types (_dag self)) out in
  (* additional data *)
  for_each (declare_additional self) (_additional_keys self) out.

Definition _batchgraph_flatten_types_and_shapes (self : Dataset)
    : result (list DType * list TensorShape * Dataset) :=
  '(output_types, output_shapes) ← _batchgraph_types_and_shapes self;
  let self := set_pos_size self (length output_types) in
  if bool_decide (SubKeys.NEG_DST ∈ list_alias (_dag self)) then
    '(neg_types, neg_shapes) ← _batchgraph_types_and_shapes self;
    Ok (output_types ++ neg_types, output_shapes ++ neg_shapes, self)
  else Ok (output_types, output_shapes, self).

Definition _make_iterator (self : Dataset) : result (Iterator * Dataset) :=
  match _induce_func self with
  | None =>
      '(output_types, output_shapes) ← _raw_flatten_types_and_shapes self;
      Ok ({| generator := raw_flatten_generator;
             output_types := output_types; output_shapes := output_shapes |}, self)
  | Some _ =>
      '(output_types, output_shapes, self) ← _batchgraph_flatten_types_and_shapes self;
      Ok ({| generator := batchgraph_flatten_generator;
             output_types := output_types; output_shapes := output_shapes |}, self)
  end.

(** The attributes [__init__] assigns before it calls [_make_iterator].
    [RawDataset_new] is the constructor of the raw dataset. *)
Definition init_attributes (RawDataset_new : Dag -> nat -> RawDataset)
    (query : Dag) (window : nat) (induce_func : option InduceFunc)
    (induce_additional_spec : option (PyDict (DType * TensorShape)))
    (edge_types : option (list string)) : Dataset :=
  {| _dag := query;
     _induce_func := induce_func;
     _additional_spec := induce_additional_spec;
     _additional_keys :=
       match induce_additional_spec with
       | Some spec => dict_keys spec
       | None => []
       end;
     edge_types :=
       match edge_types with
       | Some l => l
       | None => dag_edge_types query
       end;
     _rds := RawDataset_new query window;
     pos_size := None; _iterator := None; _values := [] |}.

(** [Dataset(query, window, induce_func, induce_additional_spec, edge_types)]. *)
Definition __init__ (RawDataset_new : Dag -> nat -> RawDataset)
    (query : Dag) (window : nat) (induce_func : option InduceFunc)
    (induce_additional_spec : option (PyDict (DType * TensorShape)))
    (edge_types : option (list string)) : result Dataset :=
  let self :=
    init_attributes RawDataset_new query window induce_func
                    induce_additional_spec edge_types in
  '(it, self) ← _make_iterator self;
  Ok (set_iterator self it).

(** ** get_data_dict and get_egograph *)

Definition get_data_dict (self : Dataset) : PyDict Data :=
  build_data_dict (_rds self) (_values self).

(** The [neighbors] argument of [get_egograph]: [None], a list of aliases,
    or any other Python object, of which only the truth value is read. *)
Inductive PyNeighbors :=
  | NbrNone
  | NbrList (l : list string)
  | NbrOther (truth : bool).

(** [if neighbors:] *)
Definition truthy (neighbors : PyNeighbors) : bool :=
  match neighbors with
  | NbrNone => false
  | NbrList l => negb (bool_decide (l = []))
  | NbrOther b => b
  end.

(** The three lists [get_egograph] fills. *)
Record Nbrs := {
  nbr_nodes : list string;
  nbr_edges : list string;
  nbr_nums : list nat }.

Definition no_nbrs : Nbrs := {| nbr_nodes := []; nbr_edges := []; nbr_nums := [] |}.

Definition append_edge (acc : Nbrs) (alias : string) : Nbrs :=
  {| nbr_nodes := nbr_nodes acc;
     nbr_edges := nbr_edges acc ++ [alias];
     nbr_nums := nbr_nums acc |}.

Definition append_node (acc : Nbrs) (alias : string) (num : nat) : Nbrs :=
  {| nbr_nodes := nbr_nodes acc ++ [alias];
     nbr_edges := nbr_edges acc;
     nbr_nums := nbr_nums acc ++ [num] |}.

Definition not_downstream_msg (dag_node pre : DagNode) : string :=
  get_alias dag_node +:+ " is not the downstream of " +:+ get_alias pre +:+ ".".

(** The loop [for nbr in neighbors] of the explicit branch. *)
Fixpoint explicit_neighbors (self : Dataset) (pre : DagNode) (neighbors : list string)
    (acc : Nbrs) : result Nbrs :=
  match neighbors with
  | [] => Ok acc
  | nbr :: neighbors' =>
      dag_node ← get_node (_dag self) nbr;
      if negb (node_in dag_node (pos_downstreams pre ++ neg_downstreams pre)) then
        Raise (ValueError (not_downstream_msg dag_node pre))
      else
        let acc :=
          if is_TraverseEdgeDagNode pre then append_edge acc (get_alias dag_node)
          else append_node acc (get_alias dag_node) (shape_last (shape dag_node)) in
        explicit_neighbors self dag_node neighbors' acc
  end.

Definition multiple_downstreams_msg (pre : DagNode) (source : string) : string :=
  "Can't automatically find neighbors for " +:+ get_alias pre +:+
  ", which has multiple downstreams. You should assign specific neighbors for " +:+
  source +:+ ".".

(** The loop [while recepts] of the automatic branch.  [recepts] is always
    the [pos_downstreams] of a node ([node]: the source first, then [cur]),
    on which the recursion runs; [pre] stays the source node, as in the
    source, where only the explicit branch reassigns it. *)
Fixpoint automatic_neighbors (pre : DagNode) (source : string) (node : DagNode)
    (acc : Nbrs) : result Nbrs :=
  match pos_downstreams node with
  | [] => Ok acc
  | [cur] =>
      let acc :=
        if is_TraverseEdgeDagNode cur then append_edge acc (get_alias cur)
        else append_node acc (get_alias cur) (shape_last (shape cur)) in
      automatic_neighbors pre source cur acc
  | _ :: _ :: _ => Raise (ValueError (multiple_downstreams_msg pre source))
  end.

(** [(self._dag.get_node(v).type, _get_feat_spec(v))] *)
Definition type_and_feat_spec (self : Dataset) (v : string) : result (string * FeatureSpec) :=
  n ← get_node (_dag self) v;
  node ← get_node (_dag self) v;
  Ok (node_type n, feature_spec (decoder node)).

(** The [return EgoGraph(...)] statement, its arguments evaluated from left
    to right. *)
Definition return_EgoGraph (self : Dataset) (data_dict : PyDict Data) (source : string)
    (nbrs : Nbrs) : result EgoGraphObj :=
  src ← dict_getitem data_dict source;
  nodes ← mapM (dict_getitem data_dict) (nbr_nodes nbrs);
  node_schema ← mapM (type_and_feat_spec self) (source :: nbr_nodes nbrs);
  edges ← mapM (dict_getitem data_dict) (nbr_edges nbrs);
  edge_schema ← mapM (type_and_feat_spec self) (nbr_edges nbrs);
  Ok (EgoGraph src nodes node_schema (nbr_nums nbrs) edges edge_schema).

Definition not_a_list_msg : string := "`neighbors` should be a list of alias".

Definition get_egograph (self : Dataset) (source : string) (neighbors : PyNeighbors)
    : result EgoGraphObj :=
  let data_dict := get_data_dict self in
  source_node ← get_node (_dag self) source;
  nbrs ← (if truthy neighbors then
            (* Use specified neighbors to construct EgoGraph. *)
            match neighbors with
            | NbrList l => explicit_neighbors self source_node l no_nbrs
            | _ => Raise (ValueError not_a_list_msg)
            end
          else
            (* Use default receptive neighbors to construct EgoGraph. *)
            automatic_neighbors source_node source source_node no_nbrs);
  return_EgoGraph self data_dict source nbrs.

(** ** get_batchgraph *)

(** [self.pos_size]: the attribute exists once the batch declarer ran. *)
Definition getattr_pos_size (self : Dataset) : result nat :=
  match pos_size self with
  | Some n => Ok n
  | None => Raise (AttributeError "pos_size")
  end.

Definition bad_alias_msg : string :=
  "alias must be one of [SubKeys.POS_SRC, SubKeys.POS_DST, SubKeys.NEG_DST]".

(** The class and the two schemas [get_batchgraph] settles on before it
    builds a graph. *)
Definition batchgraph_schema (self : Dataset)
    : result (GraphClass * NodeSchema * EdgeSchema) :=
  n ← get_node (_dag self) SubKeys.POS_SRC;
  n' ← get_node (_dag self) SubKeys.POS_SRC;
  let node_schema := SingleSchema (node_type n, decoder n') in
  let edge_schema : EdgeSchema := None in
  let graph := BatchGraph in
  if (1 <? length (node_types (_dag self))) || (1 <? length (edge_types self)) then
    Ok (HeteroBatchGraph,
        TypedSchema (map (fun x => (x, graph_get_node_decoder (_dag self) x))
                         (node_types (_dag self))),
        Some (map (fun x => (x, None)) (edge_types self)))
  else Ok (graph, node_schema, edge_schema).

Definition get_batchgraph (self : Dataset) (alias : string)
    : result (option BatchGraphObj) :=
  '(graph, node_schema, edge_schema) ← batchgraph_schema self;
  n ← getattr_pos_size self;
  let pos_graph :=
    from_tensors graph (take n (_values self)) node_schema edge_schema
                 (_additional_keys self) in
  let neg_graph :=
    if bool_decide (SubKeys.NEG_DST ∈ list_alias (_dag self)) then
      Some (from_tensors graph (drop n (_values self)) node_schema edge_schema
                         (_additional_keys self))
    else None in
  if bool_decide (alias = SubKeys.POS_SRC) || bool_decide (alias = SubKeys.POS_DST) then
    Ok (Some pos_graph)
  else if bool_decide (alias = SubKeys.NEG_DST) then Ok neg_graph
  else Raise (ValueError bad_alias_msg).

(** ** The generators *)

Section Generators.
(** [S]: the state of the data source behind [self._rds]; [G]: induced
    subgraph objects; [V]: the arrays a flattened tuple holds. *)
Context {S G V : Type}.

(** The pulling calls of the raw dataset.  Each returns its result, or the
    exception it raises, with the state the source is left in. *)
Record Source := {
  get_flatten_values : S -> result (list V) * S;
  get_subgraphs : option InduceFunc -> S -> result (list G * option (list G)) * S }.

(** What the generator calls on induced subgraphs:
    [isinstance(g, SubGraph)],
    [BatchGraph.from_graphs(graphs, additional_keys).flatten()] and
    [HeteroBatchGraph.from_graphs(graphs).flatten(node_types, edge_types)]. *)
Record BatchGraphOps := {
  isinstance_SubGraph : G -> bool;
  BatchGraph_flatten : list G -> list string -> list V;
  HeteroBatchGraph_flatten : list G -> list string -> list string -> list V }.

(** A generator object: still inside its loop, or finished.  Both carry
    the state of the source. *)
Inductive Gen :=
  | Running (s : S)
  | Finished (s : S).

(** What one [next()] on the generator gives. *)
Inductive Next :=
  | Yielded (t : list V)
  | StopIteration
  | Raised (e : exn).

Definition source_state (g : Gen) : S :=
  match g with Running s | Finished s => s end.

(** One turn of [while True: try: ... except OutOfRangeError: break], for
    the [try] body [body]. *)
Definition generator_next (body : S -> result (list V) * S) (g : Gen) : Next * Gen :=
  match g with
  | Finished s => (StopIteration, Finished s)
  | Running s =>
      match body s with
      | (Ok flatten_list, s') => (Yielded flatten_list, Running s')
      | (Raise OutOfRangeError, s') => (StopIteration, Finished s')
      | (Raise e, s') => (Raised e, Finished s')
      end
  end.

(** The [try] body of [_raw_flatten_generator]. *)
Definition raw_flatten_body (src : Source) (self : Dataset) (s : S)
    : result (list V) * S :=
  get_flatten_values src s.

(** The [try] body of [_batchgraph_flatten_generator]. *)
Definition batchgraph_flatten_body (src : Source) (ops : BatchGraphOps)
    (self : Dataset) (s : S) : result (list V) * S :=
  match get_subgraphs src (_induce_func self) s with
  | (Raise e, s') => (Raise e, s')
  | (Ok (subgraphs, neg_subgraphs), s') =>
      match subgraphs with
      | [] => (Raise IndexError, s')
      | g0 :: _ =>
          if isinstance_SubGraph ops g0 then
            let flatten_list :=
              BatchGraph_flatten ops subgraphs (_additional_keys self) in
            let flatten_list :=
              match neg_subgraphs with
              | Some neg_subgraphs =>
                  flatten_list ++
                  BatchGraph_flatten ops neg_subgraphs (_additional_keys self)
              | None => flatten_list
              end in
            (Ok flatten_list, s')
          else (* HeteroSubGraph *)
            let flatten_list :=
              HeteroBatchGraph_flatten ops subgraphs
                (node_types (_dag self)) (edge_types self) in
            let flatten_list :=
              match neg_subgraphs with
              | Some neg_subgraphs =>
                  flatten_list ++
                  HeteroBatchGraph_flatten ops neg_subgraphs
                    (node_types (_dag self)) (edge_types self)
              | None => flatten_list
              end in
            (Ok flatten_list, s')
      end
  end.

Definition _raw_flatten_generator (src : Source) (self : Dataset) : Gen -> Next * Gen :=
  generator_next (raw_flatten_body src self).

Definition _batchgraph_flatten_generator (src : Source) (ops : BatchGraphOps)
    (self : Dataset) : Gen -> Next * Gen :=
  generator_next (batchgraph_flatten_body src ops self).

(** The [try] body of the generator [_make_iterator] chose. *)
Definition generator_body (src : Source) (ops : BatchGraphOps) (self : Dataset)
    : S -> result (list V) * S :=
  match _induce_func self with
  | None => raw_flatten_body src self
  | Some _ => batchgraph_flatten_body src ops self
  end.

(** The generator [_make_iterator] chose. *)
Definition dataset_generator (src : Source) (ops : BatchGraphOps) (self : Dataset)
    : Gen -> Next * Gen :=
  match _induce_func self with
  | None => _raw_flatten_generator src self
  | Some _ => _batchgraph_flatten_generator src ops self
  end.

(** [n] successive [next()] calls: what each gave, and the generator left. *)
Fixpoint pulls (next : Gen -> Next * Gen) (n : nat) (g : Gen) : list Next * Gen :=
  match n with
  | 0 => ([], g)
  | Datatypes.S n' =>
      let '(out, g') := next g in
      let '(outs, g'') := pulls next n' g' in
      (out :: outs, g'')
  end.

(** The source gives the units [units] one after the other from state [s]
    on, and is left in state [s']. *)
Inductive serves (body : S -> result (list V) * S) : S -> list (list V) -> S -> Prop :=
  | serves_nil s : serves body s [] s
  | serves_cons s t s1 ts s' :
      body s = (Ok t, s1) -> serves body s1 ts s' -> serves body s (t :: ts) s'.
End Generators.

Arguments Source : clear implicits.
Arguments BatchGraphOps : clear implicits.
Arguments Gen : clear implicits.
Arguments Next : clear implicits.

(** ** Reference layouts and paths, against which the code is stated *)

(** The ten field slots of one alias or node type, in order: feature fields
    (int attrs, float attrs, string attrs, labels, weights), id fields (ids,
    dst ids), sparse fields (offsets, indices, dense shape). *)
Definition field_slots (d : Decoder) : list (DType * TensorShape) :=
  [ (tf_int64, [None; Some (int_attr_num d)]);
    (tf_float32, [None; Some (float_attr_num d)]);
    (tf_string, [None; Some (string_attr_num d)]);
    (tf_int32, [None]);
    (tf_float32, [None]);
    (tf_int64, [None]);
    (tf_int64, [None]);
    (tf_int64, [None]);
    (tf_int64, [None; Some 2]);
    (tf_int64, [None]) ].

(** The three mask vectors as one vector over the ten slots. *)
Definition mask_list (m : Masks) : list bool :=
  feat_mask_list (fst (fst m)) ++ id_mask_list (snd (fst m)) ++ sparse_mask_list (snd m).

(** The mask-selected (type, shape) pairs of a decoder in a given role. *)
Definition masked_fields (rds : RawDataset) (d : Decoder) (is_edge is_sparse : bool)
    : list (DType * TensorShape) :=
  np_select (field_slots d) (mask_list (get_mask rds d is_edge is_sparse)).

(** The mask-selected pairs of the node an alias names. *)
Definition alias_fields (rds : RawDataset) (node : DagNode) : list (DType * TensorShape) :=
  masked_fields rds (decoder node) (is_TraverseEdgeDagNode node) (sparse node).

Definition edge_index_field : DType * TensorShape := (tf_int32, [Some 2; None]).
Definition node_offsets_field : DType * TensorShape := (tf_int64, [None]).

(** The fields of one node type in batch mode: its mask-selected fields,
    then its node offsets. *)
Definition node_type_fields (self : Dataset) (node : string) : list (DType * TensorShape) :=
  masked_fields (_rds self) (graph_get_node_decoder (_dag self) node) false false
  ++ [node_offsets_field].

(** The number of different entries of a list of types. *)
Definition distinct_count (l : list string) : nat := length (remove_dups l).

(** [explicit_chain dag pre neighbors nodes]: every alias of [neighbors]
    resolves, in order, to the node of [nodes] at its place, and each of
    these nodes is a positive or negative downstream of the one before it
    ([pre] for the first). *)
Inductive explicit_chain (dag : Dag) : DagNode -> list string -> list DagNode -> Prop :=
  | explicit_chain_nil pre : explicit_chain dag pre [] []
  | explicit_chain_cons pre nbr dag_node neighbors nodes :
      get_node dag nbr = Ok dag_node ->
      node_in dag_node (pos_downstreams pre ++ neg_downstreams pre) = true ->
      explicit_chain dag dag_node neighbors nodes ->
      explicit_chain dag pre (nbr :: neighbors) (dag_node :: nodes).

(** Each hop paired with its predecessor. *)
Definition hops_with_pre (pre : DagNode) (nodes : list DagNode) : list (DagNode * DagNode) :=
  zip (pre :: nodes) nodes.

(** The hops whose predecessor is an edge node, and those whose predecessor
    is not, in order. *)
Definition edge_hops (pre : DagNode) (nodes : list DagNode) : list DagNode :=
  map snd (filter (fun ph => is_TraverseEdgeDagNode (fst ph) = true) (hops_with_pre pre nodes)).
Definition node_hops (pre : DagNode) (nodes : list DagNode) : list DagNode :=
  map snd (filter (fun ph => is_TraverseEdgeDagNode (fst ph) = false) (hops_with_pre pre nodes)).

(** [pos_chain node hops last]: from [node], each node in turn has exactly
    one positive downstream, the next of [hops], down to [last]. *)
Inductive pos_chain : DagNode -> list DagNode -> DagNode -> Prop :=
  | pos_chain_nil node : pos_chain node [] node
  | pos_chain_cons node cur hops last :
      pos_downstreams node = [cur] ->
      pos_chain cur hops last ->
      pos_chain node (cur :: hops) last.

(** The data dict and the query hold every alias of [aliases]. *)
Definition covered (self : Dataset) (aliases : list string) : Prop :=
  Forall (fun a => (exists d, dict_getitem (get_data_dict self) a = Ok d) /\
                   (exists n, get_node (_dag self) a = Ok n)) aliases.

(** The iterator [_make_iterator] builds in batch mode from the block
    [types], [shapes]. *)
Definition batch_iterator (query : Dag) (types : list DType) (shapes : list TensorShape)
    : Iterator :=
  {| generator := batchgraph_flatten_generator;
     output_types :=
       types ++ (if bool_decide (SubKeys.NEG_DST ∈ list_alias query) then types else []);
     output_shapes :=
       shapes ++ (if bool_decide (SubKeys.NEG_DST ∈ list_alias query) then shapes else []) |}.

(** The test [get_batchgraph] makes to choose [HeteroBatchGraph]. *)
Definition several_types (self : Dataset) : bool :=
  (1 <? length (node_types (_dag self))) || (1 <? length (edge_types self)).

(** The graphs [get_batchgraph] builds from the front and from the rest of
    the flat tensor tuple, for a given class and schemas. *)
Definition front_graph (self : Dataset) (n : nat) (graph : GraphClass)
    (node_schema : NodeSchema) (edge_schema : EdgeSchema) : BatchGraphObj :=
  from_tensors graph (take n (_values self)) node_schema edge_schema (_additional_keys self).
Definition rest_graph (self : Dataset) (n : nat) (graph : GraphClass)
    (node_schema : NodeSchema) (edge_schema : EdgeSchema) : BatchGraphObj :=
  from_tensors graph (drop n (_values self)) node_schema edge_schema (_additional_keys self).


(** ** Flattened arrays by role *)

(** What an array of a flattened tuple holds.  [None] for the type is the
    single implicit type of a homogeneous batch; slots count from 0 in the
    order of [field_slots]. *)
Inductive Field :=
  | edge_index (edge_type : option string)
  | node_field (node_type : option string) (slot : nat)
  | graph_node_offsets (node_type : option string)
  | additional (key : string)
  | alias_field (alias : string) (slot : nat).

#[global] Instance Field_eq_dec : EqDecision Field.
Proof. solve_decision. Defined.

(** An induced subgraph: a [SubGraph] or a [HeteroSubGraph]. *)
Record SubGraphObj := { is_SubGraph : bool }.

(** The mask-selected slots of a decoder, each wrapped by [wrap]. *)
Definition selected_slots (rds : RawDataset) (d : Decoder) (is_edge is_sparse : bool)
    (wrap : nat -> Field) : list Field :=
  np_select (map wrap (seq 0 10)) (mask_list (get_mask rds d is_edge is_sparse)).

(** Modelled from the spec: [HeteroBatchGraph.from_graphs(graphs).flatten(
    node_types, edge_types)] (graphlearn.python.nn.tf.data.hetero_batchgraph
    is not part of the sources).  A batch keyed by type holds one edge-index
    tensor per edge type, the entities and one node-offset tensor per node
    type, and the additional named tensors it was built with; it is
    flattened in the order of the schema declarer.  [from_graphs] is given
    the subgraphs alone, so the batch is built with no additional tensor. *)
Definition spec_HeteroBatchGraph_flatten (self : Dataset) (graphs : list SubGraphObj)
    (node_types edge_types : list string) : list Field :=
  map (fun e => edge_index (Some e)) edge_types
  ++ flat_map (fun n =>
       selected_slots (_rds self) (graph_get_node_decoder (_dag self) n) false false
                      (node_field (Some n))
       ++ [graph_node_offsets (Some n)]) node_types.

(** Modelled from the spec: [BatchGraph.from_graphs(graphs,
    additional_keys).flatten()] (graphlearn.python.nn.tf.data.batchgraph is
    not part of the sources): the edge index, the entities and the node
    offsets of the single implicit type, then one tensor per additional key
    the batch was built with. *)
Definition spec_BatchGraph_flatten (self : Dataset) (graphs : list SubGraphObj)
    (additional_keys : list string) : list Field :=
  [edge_index None]
  ++ flat_map (fun n =>
       selected_slots (_rds self) (graph_get_node_decoder (_dag self) n) false false
                      (node_field None)
       ++ [graph_node_offsets None]) (take 1 (node_types (_dag self)))
  ++ map additional additional_keys.

Definition spec_BatchGraphOps (self : Dataset) : BatchGraphOps SubGraphObj Field :=
  {| isinstance_SubGraph := is_SubGraph;
     BatchGraph_flatten := spec_BatchGraph_flatten self;
     HeteroBatchGraph_flatten := spec_HeteroBatchGraph_flatten self |}.

(** ** Sample queries and sources *)

Definition sample_get_mask (d : Decoder) (is_edge is_sparse : bool) : Masks :=
  ({| m_int_attrs := bool_decide (0 < int_attr_num d);
      m_float_attrs := bool_decide (0 < float_attr_num d);
      m_string_attrs := bool_decide (0 < string_attr_num d);
      m_labels := labeled d;
      m_weights := weighted d |},
   {| m_ids := true; m_dst_ids := is_edge |},
   {| m_offsets := is_sparse; m_indices := is_sparse; m_dense_shape := is_sparse |}).

Definition user_decoder : Decoder :=
  {| int_attr_num := 2; float_attr_num := 1; string_attr_num := 0;
     labeled := false; weighted := false; feature_spec := {| feature_spec_id := 1 |} |}.
Definition item_decoder : Decoder :=
  {| int_attr_num := 0; float_attr_num := 3; string_attr_num := 1;
     labeled := true; weighted := false; feature_spec := {| feature_spec_id := 2 |} |}.
Definition edge_decoder : Decoder :=
  {| int_attr_num := 0; float_attr_num := 0; string_attr_num := 0;
     labeled := false; weighted := true; feature_spec := {| feature_spec_id := 3 |} |}.

Definition vertex (alias type : string) (d : Decoder) (dims : list nat)
    (pos neg : list DagNode) : DagNode :=
  MkDagNode alias false type {| shape_first := 64; shape_rest := dims |} d false pos neg.
Definition edge (alias type : string) (dims : list nat) (pos : list DagNode) : DagNode :=
  MkDagNode alias true type {| shape_first := 64; shape_rest := dims |} edge_decoder false pos [].

Definition find_alias (nodes : list DagNode) (alias : string) : option DagNode :=
  List.find (fun n => bool_decide (get_alias n = alias)) nodes.

Definition query_of (nodes : list DagNode) (node_types edge_types : list string) : Dag :=
  {| dag_lookup := find_alias nodes;
     list_alias := map get_alias nodes;
     node_types := node_types;
     dag_edge_types := edge_types;
     graph_get_node_decoder :=
       fun t => if bool_decide (t = "user") then user_decoder else item_decoder |}.

(** src -> hop1 -> hop2, with a negative sample of src. *)
Definition n_hop2 : DagNode := vertex "hop2" "item" item_decoder [5; 3] [] [].
Definition n_hop1 : DagNode := vertex "hop1" "item" item_decoder [5] [n_hop2] [].
Definition n_neg : DagNode := vertex "neg_dst" "item" item_decoder [4] [] [].
Definition n_src_chain : DagNode := vertex "src" "user" user_decoder [] [n_hop1] [n_neg].
Definition chain_query : Dag :=
  query_of [n_src_chain; n_hop1; n_hop2; n_neg] ["user"; "item"] ["u-i"].

(** src -> e -> dst and src -> hop1: two positive downstreams at src. *)
Definition n_dst : DagNode := vertex "dst" "item" item_decoder [7] [] [].
Definition n_e : DagNode := edge "e" "u-i" [6] [n_dst].
Definition n_src_fork : DagNode := vertex "src" "user" user_decoder [] [n_e; n_hop1] [].
Definition fork_query : Dag :=
  query_of [n_src_fork; n_e; n_dst; n_hop1; n_hop2] ["user"; "item"] ["u-i"].

(** src -> e -> dst: a chain through an edge node. *)
Definition n_src_edge : DagNode := vertex "src" "user" user_decoder [] [n_e] [].
Definition edge_chain_query : Dag :=
  query_of [n_src_edge; n_e; n_dst] ["user"; "item"] ["u-i"].

(** One node type and one edge type. *)
Definition n_src_homo : DagNode := vertex "src" "item" item_decoder [] [n_hop1] [].
Definition homo_query : Dag := query_of [n_src_homo; n_hop1; n_hop2] ["item"] ["i-i"].

Definition sample_RawDataset (query : Dag) (window : nat) : RawDataset :=
  {| masks_keys := list_alias query;
     get_mask := sample_get_mask;
     build_data_dict := fun values =>
       imap (fun i a => (a, {| data_tensors := take 1 (drop i values) |})) (list_alias query) |}.

Definition sample_induce_func : InduceFunc := {| induce_func_id := 0 |}.

Definition struct_label_spec : PyDict (DType * TensorShape) :=
  [("struct_label", (tf_int64, [None]))].

(** A source that serves two units, is exhausted at the third pull and
    would serve again afterwards.  Its state counts the pulls.  Raw units
    hold the mask-selected slots of every alias; induced subgraphs are
    heterogeneous when [hetero] is set. *)
Definition sample_source (self : Dataset) (hetero : bool) : Source nat SubGraphObj Field :=
  {| get_flatten_values := fun s =>
       if bool_decide (s = 2) then (Raise OutOfRangeError, Datatypes.S s)
       else (Ok (flat_map (fun a =>
                   match dag_lookup (_dag self) a with
                   | Some n => selected_slots (_rds self) (decoder n)
                                 (is_TraverseEdgeDagNode n) (sparse n) (alias_field a)
                   | None => []
                   end) (masks_keys (_rds self))), Datatypes.S s);
     get_subgraphs := fun _ s =>
       if bool_decide (s = 2) then (Raise OutOfRangeError, Datatypes.S s)
       else (Ok ([ {| is_SubGraph := negb hetero |}; {| is_SubGraph := negb hetero |} ],
                 if bool_decide (SubKeys.NEG_DST ∈ list_alias (_dag self))
                 then Some [ {| is_SubGraph := negb hetero |} ] else None),
             Datatypes.S s) |}.

(** The datasets of the samples, as [__init__] leaves them; the batch-mode
    ones are also given before [_make_iterator] ran. *)
Definition built (r : result Dataset) (unbuilt : Dataset) : Dataset :=
  match r with Ok self => self | Raise _ => unbuilt end.

Definition raw_chain_dataset : Dataset :=
  built (__init__ sample_RawDataset chain_query 5 None None None)
        (init_attributes sample_RawDataset chain_query 5 None None None).

Definition raw_fork_dataset : Dataset :=
  built (__init__ sample_RawDataset fork_query 5 None None None)
        (init_attributes sample_RawDataset fork_query 5 None None None).

Definition raw_edge_chain_dataset : Dataset :=
  built (__init__ sample_RawDataset edge_chain_query 5 None None None)
        (init_attributes sample_RawDataset edge_chain_query 5 None None None).

Definition hetero_dataset : Dataset :=
  built (__init__ sample_RawDataset chain_query 5 (Some sample_induce_func)
                  (Some struct_label_spec) None)
        (init_attributes sample_RawDataset chain_query 5 (Some sample_induce_func)
                         (Some struct_label_spec) None).

Definition hetero_fork_dataset : Dataset :=
  built (__init__ sample_RawDataset fork_query 5 (Some sample_induce_func)
                  (Some struct_label_spec) None)
        (init_attributes sample_RawDataset fork_query 5 (Some sample_induce_func)
                         (Some struct_label_spec) None).

Definition hetero_plain_dataset : Dataset :=
  built (__init__ sample_RawDataset fork_query 5 (Some sample_induce_func) None None)
        (init_attributes sample_RawDataset fork_query 5 (Some sample_induce_func)
                         None None).

Definition homo_dataset : Dataset :=
  built (__init__ sample_RawDataset homo_query 5 (Some sample_induce_func)
                  (Some struct_label_spec) None)
        (init_attributes sample_RawDataset homo_query 5 (Some sample_induce_func)
                         (Some struct_label_spec) None).

(** ** Further reference definitions and samples *)

(** The flatten call the batch generator makes on [graphs], for the class
    it chose from the first pulled subgraph [g0]. *)
Definition flatten_as {G V} (ops : BatchGraphOps G V) (self : Dataset) (g0 : G)
    (graphs : list G) : list V :=
  if isinstance_SubGraph ops g0
  then BatchGraph_flatten ops graphs (_additional_keys self)
  else HeteroBatchGraph_flatten ops graphs (node_types (_dag self)) (edge_types self).

(** The number of slots a mask selects. *)
Definition selected (m : Masks) : nat := length (filter (fun b => b = true) (mask_list m)).

(** A source whose pulls give an empty list of subgraphs. *)
Definition empty_batch_source : Source nat SubGraphObj Field :=
  {| get_flatten_values := fun s => (Raise TypeError, Datatypes.S s);
     get_subgraphs := fun _ s => (Ok ([], None), Datatypes.S s) |}.

(** One edge type configured twice. *)
Definition twice_configured_dataset : Dataset :=
  built (__init__ sample_RawDataset homo_query 5 (Some sample_induce_func) None
                  (Some ["i-i"; "i-i"]))
        (init_attributes sample_RawDataset homo_query 5 (Some sample_induce_func) None
                         (Some ["i-i"; "i-i"])).

(** src -> e, an edge node without downstream. *)
Definition n_e_leaf : DagNode := edge "e" "u-i" [6] [].
Definition n_src_leaf : DagNode := vertex "src" "user" user_decoder [] [n_e_leaf] [].
Definition edge_leaf_query : Dag := query_of [n_src_leaf; n_e_leaf] ["user"] ["u-i"].

Definition raw_edge_leaf_dataset : Dataset :=
  built (__init__ sample_RawDataset edge_leaf_query 5 None None None)
        (init_attributes sample_RawDataset edge_leaf_query 5 None None None).

(** * Properties *)

(** ** Lists, masks and loops *)

(** Closes a decidable goal on concrete data by evaluation. *)
Ltac by_decide := apply (bool_decide_unpack _); vm_compute; exact I.

Lemma np_select_app {A} (xs1 xs2 : list A) (m1 m2 : list bool) :
  length xs1 = length m1 ->
  np_select (xs1 ++ xs2) (m1 ++ m2) = np_select xs1 m1 ++ np_select xs2 m2.
Proof.
  revert m1. induction xs1 as [|x xs1 IH]; intros [|b m1] Hlen; simplify_eq/=.
  - done.
  - rewrite IH by done. by destruct b.
Qed.

Lemma np_select_map {A B} (f : A -> B) (xs : list A) (m : list bool) :
  map f (np_select xs m) = np_select (map f xs) m.
Proof.
  revert m. induction xs as [|x xs IH]; intros [|[] m]; simpl; by rewrite ?IH.
Qed.

Lemma np_select_subseteq {A} (xs : list A) (m : list bool) : np_select xs m ⊆ xs.
Proof.
  revert m. induction xs as [|x xs IH]; intros [|[] m]; simpl;
    try apply list_subseteq_nil.
  - by apply list_subseteq_skip.
  - by apply list_subseteq_cons.
Qed.

Lemma elem_of_concat {A} (x : A) (ls : list (list A)) :
  x ∈ concat ls -> exists l, x ∈ l /\ l ∈ ls.
Proof.
  induction ls as [|l ls IH]; simpl; [by intros ?%elem_of_nil|].
  intros [Hx|Hx]%elem_of_app.
  - exists l. split; [done | apply list_elem_of_here].
  - destruct (IH Hx) as (l' & ? & ?). exists l'. split; [done | by apply list_elem_of_further].
Qed.

Lemma zip_map_fst_snd {A B} (l : list (A * B)) : zip (map fst l) (map snd l) = l.
Proof. induction l as [|[a b] l IH]; simpl; by rewrite ?IH. Qed.

(** What [_data_types_and_shapes] returns is the mask selection over the
    ten slots, as the list of types and the list of shapes. *)
Lemma data_types_and_shapes_fields (self : Dataset) (d : Decoder) (is_edge is_sparse : bool) :
  _data_types_and_shapes self d is_edge is_sparse
  = (map fst (masked_fields (_rds self) d is_edge is_sparse),
     map snd (masked_fields (_rds self) d is_edge is_sparse)).
Proof.
  unfold _data_types_and_shapes, masked_fields, mask_list.
  destruct (get_mask (_rds self) d is_edge is_sparse) as [[fm im] sm]; simpl fst; simpl snd.
  rewrite !np_select_map.
  change (map fst (field_slots d)) with (feat_types ++ id_types ++ sparse_types).
  change (map snd (field_slots d)) with (feat_shapes d ++ id_shapes ++ sparse_shapes).
  by rewrite !np_select_app by done.
Qed.

Lemma for_each_app {A B} (body : B -> A -> result B) (xs ys : list A) (acc : B) :
  for_each body (xs ++ ys) acc = acc' ← for_each body xs acc; for_each body ys acc'.
Proof.
  revert acc. induction xs as [|x xs IH]; intros acc; simpl; [done|].
  destruct (body acc x); simpl; [apply IH | done].
Qed.

Lemma dict_getitem_key {V} (d : PyDict V) (key : string) :
  key ∈ dict_keys d -> exists v, dict_getitem d key = Ok v.
Proof.
  induction d as [|[k v] d IH]; simpl; [by intros ?%elem_of_nil|].
  intros Hin. case_bool_decide; [by eexists|].
  apply elem_of_cons in Hin as [->|Hin]; [done | by apply IH].
Qed.

(** ** The schema declarers *)

Lemma raw_declare_alias_ok (self : Dataset) (acc : list DType * list TensorShape)
    (alias : string) (node : DagNode) :
  get_node (_dag self) alias = Ok node ->
  raw_declare_alias self acc alias
  = Ok (fst acc ++ map fst (alias_fields (_rds self) node),
        snd acc ++ map snd (alias_fields (_rds self) node)).
Proof.
  intros Hnode. unfold raw_declare_alias. rewrite Hnode. cbn [mbind result_bind].
  by rewrite data_types_and_shapes_fields.
Qed.

Lemma raw_declare_loop (self : Dataset) (keys : list string) (nodes : list DagNode)
    (acc : list DType * list TensorShape) :
  Forall2 (fun alias node => get_node (_dag self) alias = Ok node) keys nodes ->
  for_each (raw_declare_alias self) keys acc
  = Ok (fst acc ++ map fst (concat (map (alias_fields (_rds self)) nodes)),
        snd acc ++ map snd (concat (map (alias_fields (_rds self)) nodes))).
Proof.
  intros H. revert acc.
  induction H as [|alias node keys nodes Hnode _ IH]; intros [types shapes];
    cbn [for_each].
  - simpl. by rewrite !app_nil_r.
  - rewrite (raw_declare_alias_ok _ _ _ _ Hnode). cbn [mbind result_bind].
    rewrite IH. cbn [fst snd map concat]. by rewrite !map_app, !app_assoc.
Qed.

Lemma field_slots_shapes (d : Decoder) (s : TensorShape) :
  s ∈ map snd (field_slots d) ->
  s = [None] \/ s = [None; Some 2] \/
  s = [None; Some (int_attr_num d)] \/
  s = [None; Some (float_attr_num d)] \/
  s = [None; Some (string_attr_num d)].
Proof.
  simpl. rewrite !elem_of_cons, elem_of_nil. intros H.
  repeat (destruct H as [->|H]; [by auto 10|]). done.
Qed.

(** C4. In raw mode the declared sequence is the concatenation, over the
    aliases in the order the raw dataset enumerates its masks, of each
    alias's mask-selected (type, shape) pairs, taken from the ten slots in
    the order int attrs, float attrs, string attrs, labels, weights, ids,
    dst ids, offsets, indices, dense shape; every declared shape starts with
    an unbound dimension, and a second dimension is 2 (indices) or the int,
    float or string attribute count of the alias's decoder. *)
Theorem raw_declaration_layout (self : Dataset) (nodes : list DagNode) :
  Forall2 (fun alias node => get_node (_dag self) alias = Ok node)
          (masks_keys (_rds self)) nodes ->
  exists types shapes,
    _raw_flatten_types_and_shapes self = Ok (types, shapes)
    /\ length types = length shapes
    /\ zip types shapes = concat (map (alias_fields (_rds self)) nodes)
    /\ (forall node, alias_fields (_rds self) node
          = np_select (field_slots (decoder node))
              (mask_list (get_mask (_rds self) (decoder node)
                            (is_TraverseEdgeDagNode node) (sparse node))))
    /\ (forall s, s ∈ shapes -> head s = Some None)
    /\ (forall s, s ∈ shapes ->
          s = [None] \/ s = [None; Some 2] \/
          exists node, node ∈ nodes /\
            (s = [None; Some (int_attr_num (decoder node))] \/
             s = [None; Some (float_attr_num (decoder node))] \/
             s = [None; Some (string_attr_num (decoder node))])).
Proof.
  intros Hnodes.
  pose proof (raw_declare_loop self _ _ ([], []) Hnodes) as Hloop. simpl in Hloop.
  set (fields := concat (map (alias_fields (_rds self)) nodes)) in *.
  assert (Hshape : forall s, s ∈ map snd fields ->
            s = [None] \/ s = [None; Some 2] \/
            exists node, node ∈ nodes /\
              (s = [None; Some (int_attr_num (decoder node))] \/
               s = [None; Some (float_attr_num (decoder node))] \/
               s = [None; Some (string_attr_num (decoder node))])).
  { intros s Hs. apply list_elem_of_fmap in Hs as ([t s'] & -> & Hin).
    apply elem_of_concat in Hin as (l & Hin & Hl).
    apply list_elem_of_fmap in Hl as (node & -> & Hnode).
    assert (Hslot : s' ∈ map snd (field_slots (decoder node))).
    { apply list_elem_of_fmap. exists (t, s'). split; [done|].
      eapply np_select_subseteq, Hin. }
    apply field_slots_shapes in Hslot.
    destruct Hslot as [->|[->|[->|[->| ->]]]]; eauto 10. }
  exists (map fst fields), (map snd fields). split_and!.
  - exact Hloop.
  - by rewrite !length_map.
  - apply zip_map_fst_snd.
  - done.
  - intros s Hs. destruct (Hshape s Hs) as [->|[->|(node & _ & [->|[->| ->]])]]; done.
  - exact Hshape.
Qed.

Lemma raw_declaration_layout_witness :
  exists types shapes,
    _raw_flatten_types_and_shapes raw_chain_dataset = Ok (types, shapes)
    /\ length types = 15
    /\ zip types shapes
       = concat (map (alias_fields (_rds raw_chain_dataset))
                     [n_src_chain; n_hop1; n_hop2; n_neg]).
Proof.
  destruct (raw_declaration_layout raw_chain_dataset [n_src_chain; n_hop1; n_hop2; n_neg])
    as (types & shapes & Hdecl & Hlen & Hzip & _).
  - repeat constructor.
  - exists types, shapes. split_and!; [done | | done].
    rewrite <- (length_zip_with_l_eq pair types shapes) by done.
    change (length (zip types shapes) = 15). rewrite Hzip. reflexivity.
Defined.

Lemma edge_index_loop (edges : list string) (acc : list DType * list TensorShape) :
  fold_left declare_edge_index edges acc
  = (fst acc ++ map fst (map (fun _ => edge_index_field) edges),
     snd acc ++ map snd (map (fun _ => edge_index_field) edges)).
Proof.
  revert acc. induction edges as [|e edges IH]; intros [types shapes]; simpl.
  - by rewrite !app_nil_r.
  - rewrite IH. simpl. by rewrite <- !app_assoc.
Qed.

Lemma node_type_loop (self : Dataset) (nodes : list string)
    (acc : list DType * list TensorShape) :
  fold_left (declare_node_type self) nodes acc
  = (fst acc ++ map fst (flat_map (node_type_fields self) nodes),
     snd acc ++ map snd (flat_map (node_type_fields self) nodes)).
Proof.
  revert acc. induction nodes as [|n nodes IH]; intros [types shapes];
    cbn [fold_left flat_map].
  - simpl. by rewrite !app_nil_r.
  - rewrite IH. unfold declare_node_type, node_type_fields.
    rewrite data_types_and_shapes_fields. cbn [fst snd].
    rewrite !map_app, <- !app_assoc. reflexivity.
Qed.

Lemma declare_additional_ok (self : Dataset) (spec : PyDict (DType * TensorShape))
    (acc : list DType * list TensorShape) (key : string) (ts : DType * TensorShape) :
  _additional_spec self = Some spec ->
  dict_getitem spec key = Ok ts ->
  declare_additional self acc key = Ok (fst acc ++ [fst ts], snd acc ++ [snd ts]).
Proof. intros Hspec Hts. unfold declare_additional. by rewrite Hspec, Hts. Qed.

Lemma additional_loop (self : Dataset) (spec : PyDict (DType * TensorShape))
    (keys : list string) (acc : list DType * list TensorShape) :
  _additional_spec self = Some spec ->
  keys ⊆ dict_keys spec ->
  exists extra,
    for_each (declare_additional self) keys acc
    = Ok (fst acc ++ map fst extra, snd acc ++ map snd extra)
    /\ Forall2 (fun key ts => dict_getitem spec key = Ok ts) keys extra.
Proof.
  intros Hspec. revert acc.
  induction keys as [|key keys IH]; intros [types shapes] Hkeys; cbn [for_each].
  - exists []. simpl. by rewrite !app_nil_r.
  - destruct (dict_getitem_key spec key) as [ts Hts].
    { apply Hkeys, list_elem_of_here. }
    destruct (IH (types ++ [fst ts], shapes ++ [snd ts])) as (extra & Hloop & Hall).
    { intros k Hk. by apply Hkeys, list_elem_of_further. }
    exists (ts :: extra). split; [|by constructor].
    rewrite (declare_additional_ok _ _ _ _ _ Hspec Hts). cbn [mbind result_bind fst snd].
    rewrite Hloop. simpl. by rewrite <- !app_assoc.
Qed.

(** The block [_batchgraph_types_and_shapes] declares, for a dataset whose
    additional keys are the keys of its additional spec, as [__init__] sets
    them. *)
Lemma batch_block (self : Dataset) :
  _additional_keys self
  = match _additional_spec self with Some spec => dict_keys spec | None => [] end ->
  exists extra,
    _batchgraph_types_and_shapes self
    = Ok (map fst (map (fun _ => edge_index_field) (edge_types self)
                   ++ flat_map (node_type_fields self) (node_types (_dag self))
                   ++ extra),
          map snd (map (fun _ => edge_index_field) (edge_types self)
                   ++ flat_map (node_type_fields self) (node_types (_dag self))
                   ++ extra))
    /\ Forall2 (fun key ts => exists spec,
                  _additional_spec self = Some spec /\ dict_getitem spec key = Ok ts)
               (_additional_keys self) extra.
Proof.
  intros Hkeys. unfold _batchgraph_types_and_shapes.
  rewrite edge_index_loop, node_type_loop. cbn [fst snd app].
  destruct (_additional_spec self) as [spec|] eqn:Hspec.
  - destruct (additional_loop self spec (_additional_keys self)
                (map fst (map (fun _ => edge_index_field) (edge_types self))
                 ++ map fst (flat_map (node_type_fields self) (node_types (_dag self))),
                 map snd (map (fun _ => edge_index_field) (edge_types self))
                 ++ map snd (flat_map (node_type_fields self) (node_types (_dag self))))
                Hspec) as (extra & Hloop & Hall).
    { by rewrite Hkeys. }
    exists extra. split.
    + rewrite Hloop. cbn [fst snd]. by rewrite !map_app, <- !app_assoc.
    + eapply Forall2_impl; [|exact Hall]. intros key ts Hts. by exists spec.
  - rewrite Hkeys. exists []. split; [|constructor].
    cbn [for_each]. by rewrite !map_app, !app_nil_r.
Qed.

(** C3. In batch mode the declared sequence is, in this order: one
    edge-index field (int32, shape [2, unbound]) per edge type; for each
    node type its mask-selected fields followed by one node-offset field
    (int64, shape [unbound]); one field per additional key, carrying the
    type and shape the caller's spec gives for that key. *)
Theorem batch_declaration_layout (self : Dataset) :
  _additional_keys self
  = match _additional_spec self with Some spec => dict_keys spec | None => [] end ->
  exists types shapes extra,
    _batchgraph_types_and_shapes self = Ok (types, shapes)
    /\ length types = length shapes
    /\ zip types shapes
       = map (fun _ => (tf_int32, [Some 2; None])) (edge_types self)
         ++ flat_map (fun node =>
              masked_fields (_rds self) (graph_get_node_decoder (_dag self) node)
                            false false
              ++ [(tf_int64, [None])]) (node_types (_dag self))
         ++ extra
    /\ Forall2 (fun key ts => exists spec,
                  _additional_spec self = Some spec /\ dict_getitem spec key = Ok ts)
               (_additional_keys self) extra.
Proof.
  intros Hkeys. destruct (batch_block self Hkeys) as (extra & Hblock & Hextra).
  eexists _, _, extra. split_and!.
  - exact Hblock.
  - by rewrite !length_map.
  - apply zip_map_fst_snd.
  - exact Hextra.
Qed.

Lemma batch_declaration_layout_witness :
  exists types shapes extra,
    _batchgraph_types_and_shapes hetero_dataset = Ok (types, shapes)
    /\ length types = length shapes
    /\ zip types shapes
       = map (fun _ => (tf_int32, [Some 2; None])) (edge_types hetero_dataset)
         ++ flat_map (fun node =>
              masked_fields (_rds hetero_dataset)
                            (graph_get_node_decoder (_dag hetero_dataset) node)
                            false false
              ++ [(tf_int64, [None])]) (node_types (_dag hetero_dataset))
         ++ extra
    /\ Forall2 (fun key ts => exists spec,
                  _additional_spec hetero_dataset = Some spec
                  /\ dict_getitem spec key = Ok ts)
               (_additional_keys hetero_dataset) extra.
Proof. apply (batch_declaration_layout hetero_dataset). reflexivity. Defined.

(** ** Construction in batch mode *)

Lemma get_next_dtypes (it : Iterator) :
  length (output_types it) = length (output_shapes it) ->
  map tensor_dtype (get_next it) = output_types it.
Proof.
  intros Hlen. unfold get_next.
  change (map tensor_dtype ?l) with (tensor_dtype <$> l). rewrite fmap_imap.
  rewrite (imap_ext _ (const fst)) by done. rewrite imap_const.
  apply fst_zip. lia.
Qed.

Lemma get_next_shapes (it : Iterator) :
  length (output_types it) = length (output_shapes it) ->
  map tensor_shape (get_next it) = output_shapes it.
Proof.
  intros Hlen. unfold get_next.
  change (map tensor_shape ?l) with (tensor_shape <$> l). rewrite fmap_imap.
  rewrite (imap_ext _ (const snd)) by done. rewrite imap_const.
  apply snd_zip. lia.
Qed.

Lemma init_attributes_keys RawDataset_new query window induce_func spec edge_types :
  let self := init_attributes RawDataset_new query window induce_func spec edge_types in
  _additional_keys self
  = match _additional_spec self with Some spec => dict_keys spec | None => [] end.
Proof. done. Qed.

(** In batch mode [__init__] never fails: it declares the block once,
    writes its length to [pos_size], and builds the iterator from the block,
    repeated when the query lists the negative-destination alias. *)
Lemma init_batch_mode RawDataset_new query window f spec edge_types :
  exists types shapes,
    _batchgraph_types_and_shapes
      (init_attributes RawDataset_new query window (Some f) spec edge_types)
    = Ok (types, shapes)
    /\ length types = length shapes
    /\ __init__ RawDataset_new query window (Some f) spec edge_types
       = Ok (set_iterator
               (set_pos_size
                  (init_attributes RawDataset_new query window (Some f) spec edge_types)
                  (length types))
               (batch_iterator query types shapes)).
Proof.
  set (self := init_attributes RawDataset_new query window (Some f) spec edge_types).
  destruct (batch_block self (init_attributes_keys _ _ _ _ _ _)) as (extra & Hblock & _).
  eexists _, _. split; [exact Hblock|]. split; [by rewrite !length_map|].
  unfold __init__, _make_iterator. fold self.
  change (_induce_func self) with (Some f).
  unfold _batchgraph_flatten_types_and_shapes. rewrite Hblock.
  cbn [mbind result_bind].
  change (_batchgraph_types_and_shapes (set_pos_size self ?n))
    with (_batchgraph_types_and_shapes self).
  rewrite Hblock. cbn [mbind result_bind].
  change (list_alias (_dag (set_pos_size self ?n))) with (list_alias query).
  unfold batch_iterator. case_bool_decide; cbn [mbind result_bind]; by rewrite ?app_nil_r.
Qed.

(** ** get_batchgraph *)

Lemma batchgraph_schema_ok (self : Dataset) (n0 : DagNode) :
  get_node (_dag self) SubKeys.POS_SRC = Ok n0 ->
  batchgraph_schema self
  = Ok (if several_types self
        then (HeteroBatchGraph,
              TypedSchema (map (fun x => (x, graph_get_node_decoder (_dag self) x))
                               (node_types (_dag self))),
              Some (map (fun x => (x, None)) (edge_types self)))
        else (BatchGraph, SingleSchema (node_type n0, decoder n0), None)).
Proof.
  intros Hsrc. unfold batchgraph_schema, several_types. rewrite Hsrc.
  cbn [mbind result_bind]. by destruct (_ || _).
Qed.

Lemma get_batchgraph_dispatch (self : Dataset) (k : nat) (graph : GraphClass)
    (node_schema : NodeSchema) (edge_schema : EdgeSchema) (alias : string) :
  batchgraph_schema self = Ok (graph, node_schema, edge_schema) ->
  pos_size self = Some k ->
  get_batchgraph self alias
  = if bool_decide (alias = SubKeys.POS_SRC) || bool_decide (alias = SubKeys.POS_DST)
    then Ok (Some (front_graph self k graph node_schema edge_schema))
    else if bool_decide (alias = SubKeys.NEG_DST)
    then Ok (if bool_decide (SubKeys.NEG_DST ∈ list_alias (_dag self))
             then Some (rest_graph self k graph node_schema edge_schema)
             else None)
    else Raise (ValueError bad_alias_msg).
Proof.
  intros Hschema Hk. unfold get_batchgraph, getattr_pos_size.
  by rewrite Hschema, Hk.
Qed.

(** C2. In batch mode the declarer records [pos_size] as the length of the
    single block, before the negative block is appended (the block is
    declared again and appended when the query lists the negative-destination
    alias), and [get_batchgraph] builds the positive graph from the first
    [pos_size] tensors of the flat tuple, which are those of the block, and
    the negative graph from the remaining ones, which are those of the
    repeated block. *)
Theorem pos_size_splits_values RawDataset_new query window f spec edge_types n0 :
  get_node query SubKeys.POS_SRC = Ok n0 ->
  exists self types shapes it graph node_schema edge_schema,
    __init__ RawDataset_new query window (Some f) spec edge_types = Ok self
    /\ _batchgraph_types_and_shapes self = Ok (types, shapes)
    /\ pos_size self = Some (length types)
    /\ _iterator self = Some it
    /\ output_types it
       = types ++ (if bool_decide (SubKeys.NEG_DST ∈ list_alias query) then types else [])
    /\ output_shapes it
       = shapes ++ (if bool_decide (SubKeys.NEG_DST ∈ list_alias query) then shapes else [])
    /\ get_batchgraph self SubKeys.POS_SRC
       = Ok (Some (from_tensors graph (take (length types) (_values self))
                                node_schema edge_schema (_additional_keys self)))
    /\ get_batchgraph self SubKeys.NEG_DST
       = Ok (if bool_decide (SubKeys.NEG_DST ∈ list_alias query)
             then Some (from_tensors graph (drop (length types) (_values self))
                                     node_schema edge_schema (_additional_keys self))
             else None)
    /\ map tensor_dtype (take (length types) (_values self)) = types
    /\ map tensor_shape (take (length types) (_values self)) = shapes
    /\ map tensor_dtype (drop (length types) (_values self))
       = (if bool_decide (SubKeys.NEG_DST ∈ list_alias query) then types else [])
    /\ map tensor_shape (drop (length types) (_values self))
       = (if bool_decide (SubKeys.NEG_DST ∈ list_alias query) then shapes else []).
Proof.
  intros Hsrc.
  destruct (init_batch_mode RawDataset_new query window f spec edge_types)
    as (types & shapes & Hblock & Hlen & Hinit).
  set (self0 := init_attributes RawDataset_new query window (Some f) spec edge_types) in *.
  set (it := batch_iterator query types shapes) in *.
  set (self := set_iterator (set_pos_size self0 (length types)) it) in *.
  assert (Hit : length (output_types it) = length (output_shapes it)).
  { unfold it, batch_iterator; simpl. rewrite !length_app.
    case_bool_decide; simpl; lia. }
  destruct (batchgraph_schema self) as [[[graph node_schema] edge_schema]|e] eqn:Hschema.
  2: { rewrite (batchgraph_schema_ok self n0 Hsrc) in Hschema. done. }
  exists self, types, shapes, it, graph, node_schema, edge_schema.
  assert (Hdt : map tensor_dtype (_values self) = output_types it)
    by apply (get_next_dtypes it Hit).
  assert (Hsh : map tensor_shape (_values self) = output_shapes it)
    by apply (get_next_shapes it Hit).
  split_and!; try done.
  - rewrite (get_batchgraph_dispatch self (length types) _ _ _ _ Hschema eq_refl).
    reflexivity.
  - rewrite (get_batchgraph_dispatch self (length types) _ _ _ _ Hschema eq_refl).
    reflexivity.
  - change (map tensor_dtype ?l) with (tensor_dtype <$> l). rewrite fmap_take.
    change (tensor_dtype <$> _values self) with (map tensor_dtype (_values self)).
    rewrite Hdt. apply take_app_length.
  - change (map tensor_shape ?l) with (tensor_shape <$> l). rewrite fmap_take.
    change (tensor_shape <$> _values self) with (map tensor_shape (_values self)).
    rewrite Hsh. simpl. rewrite Hlen. apply take_app_length.
  - change (map tensor_dtype ?l) with (tensor_dtype <$> l). rewrite fmap_drop.
    change (tensor_dtype <$> _values self) with (map tensor_dtype (_values self)).
    rewrite Hdt. apply drop_app_length.
  - change (map tensor_shape ?l) with (tensor_shape <$> l). rewrite fmap_drop.
    change (tensor_shape <$> _values self) with (map tensor_shape (_values self)).
    rewrite Hsh. simpl. rewrite Hlen. apply drop_app_length.
Qed.

Lemma pos_size_splits_values_witness :
  exists self types shapes,
    __init__ sample_RawDataset chain_query 5 (Some sample_induce_func)
             (Some struct_label_spec) None = Ok self
    /\ _batchgraph_types_and_shapes self = Ok (types, shapes)
    /\ pos_size self = Some (length types)
    /\ map tensor_dtype (take (length types) (_values self)) = types
    /\ map tensor_dtype (drop (length types) (_values self)) = types.
Proof.
  destruct (pos_size_splits_values sample_RawDataset chain_query 5 sample_induce_func
              (Some struct_label_spec) None n_src_chain eq_refl)
    as (self & types & shapes & it & graph & node_schema & edge_schema
        & Hinit & Hblock & Hpos & _ & _ & _ & _ & _ & Hfront & _ & Hrest & _).
  exists self, types, shapes. split_and!; assumption.
Defined.

(** C6. On a dataset built in batch mode ([pos_size] is set) whose query
    resolves the positive-source alias, [get_batchgraph] returns the same
    positive batch for the positive-source and the positive-destination
    alias; for the negative-destination alias it returns the negative batch
    when the query lists that alias and [None] when it does not; for any
    other alias it raises [ValueError]. *)
Theorem get_batchgraph_by_alias (self : Dataset) (n0 : DagNode) (k : nat) :
  get_node (_dag self) SubKeys.POS_SRC = Ok n0 ->
  pos_size self = Some k ->
  exists graph node_schema edge_schema,
    get_batchgraph self SubKeys.POS_SRC
    = Ok (Some (from_tensors graph (take k (_values self)) node_schema edge_schema
                             (_additional_keys self)))
    /\ get_batchgraph self SubKeys.POS_DST = get_batchgraph self SubKeys.POS_SRC
    /\ (SubKeys.NEG_DST ∈ list_alias (_dag self) ->
        get_batchgraph self SubKeys.NEG_DST
        = Ok (Some (from_tensors graph (drop k (_values self)) node_schema edge_schema
                                 (_additional_keys self))))
    /\ (SubKeys.NEG_DST ∉ list_alias (_dag self) ->
        get_batchgraph self SubKeys.NEG_DST = Ok None)
    /\ (forall alias,
          alias <> SubKeys.POS_SRC -> alias <> SubKeys.POS_DST ->
          alias <> SubKeys.NEG_DST ->
          get_batchgraph self alias = Raise (ValueError bad_alias_msg)).
Proof.
  intros Hsrc Hk.
  destruct (batchgraph_schema self) as [[[graph node_schema] edge_schema]|e] eqn:Hschema.
  2: { rewrite (batchgraph_schema_ok self n0 Hsrc) in Hschema. done. }
  exists graph, node_schema, edge_schema.
  pose proof (get_batchgraph_dispatch self k _ _ _ SubKeys.POS_SRC Hschema Hk) as Hpos.
  pose proof (get_batchgraph_dispatch self k _ _ _ SubKeys.POS_DST Hschema Hk) as Hdst.
  pose proof (get_batchgraph_dispatch self k _ _ _ SubKeys.NEG_DST Hschema Hk) as Hneg.
  split_and!.
  - by rewrite Hpos.
  - by rewrite Hpos, Hdst.
  - intros Hin. rewrite Hneg. simpl. by rewrite bool_decide_true.
  - intros Hnotin. rewrite Hneg. simpl. by rewrite bool_decide_false.
  - intros alias H1 H2 H3.
    rewrite (get_batchgraph_dispatch self k _ _ _ alias Hschema Hk).
    by rewrite !bool_decide_false.
Qed.

Lemma get_batchgraph_by_alias_witness :
  exists graph node_schema edge_schema,
    get_batchgraph hetero_dataset "src"
    = Ok (Some (from_tensors graph (take 11 (_values hetero_dataset)) node_schema
                             edge_schema (_additional_keys hetero_dataset)))
    /\ get_batchgraph hetero_dataset "dst" = get_batchgraph hetero_dataset "src"
    /\ get_batchgraph hetero_dataset "neg_dst"
       = Ok (Some (from_tensors graph (drop 11 (_values hetero_dataset)) node_schema
                                edge_schema (_additional_keys hetero_dataset)))
    /\ get_batchgraph homo_dataset "neg_dst" = Ok None
    /\ get_batchgraph hetero_dataset "hop1" = Raise (ValueError bad_alias_msg).
Proof.
  destruct (get_batchgraph_by_alias hetero_dataset n_src_chain 11 eq_refl eq_refl)
    as (graph & node_schema & edge_schema & Hpos & Hdst & Hneg & _ & Hother).
  destruct (get_batchgraph_by_alias homo_dataset n_src_homo 7 eq_refl eq_refl)
    as (_ & _ & _ & _ & _ & _ & Hnone & _).
  exists graph, node_schema, edge_schema. split_and!.
  - exact Hpos.
  - exact Hdst.
  - apply Hneg. by_decide.
  - apply Hnone. by_decide.
  - by apply Hother.
Defined.

Lemma get_batchgraph_returns (self : Dataset) (k : nat) (graph : GraphClass)
    (node_schema : NodeSchema) (edge_schema : EdgeSchema) (alias : string)
    (g : BatchGraphObj) :
  batchgraph_schema self = Ok (graph, node_schema, edge_schema) ->
  pos_size self = Some k ->
  get_batchgraph self alias = Ok (Some g) ->
  bg_class g = graph /\ bg_node_schema g = node_schema /\ bg_edge_schema g = edge_schema.
Proof.
  intros Hschema Hk. rewrite (get_batchgraph_dispatch self k _ _ _ alias Hschema Hk).
  destruct (_ || _).
  - intros [= <-]. done.
  - destruct (bool_decide (alias = _)); [|done].
    destruct (bool_decide (_ ∈ _)); [|done]. intros [= <-]. done.
Qed.

(** A dataset built in raw mode has no [pos_size]: [get_batchgraph] raises
    [AttributeError] on it, whatever the alias. *)
Lemma get_batchgraph_raw_mode RawDataset_new query window spec configured
    (self : Dataset) (n0 : DagNode) (alias : string) :
  __init__ RawDataset_new query window None spec configured = Ok self ->
  get_node query SubKeys.POS_SRC = Ok n0 ->
  get_batchgraph self alias = Raise (AttributeError "pos_size").
Proof.
  unfold __init__, _make_iterator. cbn [_induce_func init_attributes].
  destruct (_raw_flatten_types_and_shapes _) as [[types shapes]|e]; [|done].
  intros [= <-] Hsrc. unfold get_batchgraph.
  set (self := set_iterator _ _).
  rewrite (batchgraph_schema_ok self n0 Hsrc). cbn [mbind result_bind].
  by destruct (several_types self).
Qed.

Lemma get_batchgraph_raw_mode_witness :
  get_batchgraph raw_chain_dataset "src" = Raise (AttributeError "pos_size").
Proof.
  apply (get_batchgraph_raw_mode sample_RawDataset chain_query 5 None None
           raw_chain_dataset n_src_chain "src"); reflexivity.
Defined.

Lemma remove_dups_NoDup (l : list string) : NoDup l -> remove_dups l = l.
Proof.
  induction 1 as [|x l Hx _ IH]; simpl; [done|].
  destruct (decide_rel elem_of x l); [done | by rewrite IH].
Qed.

Lemma several_types_spec (self : Dataset) :
  several_types self = true
  <-> 1 < length (node_types (_dag self)) \/ 1 < length (edge_types self).
Proof.
  unfold several_types. rewrite orb_true_iff, !Nat.ltb_lt. done.
Qed.

(** C7, as the code has it.  On a dataset built in batch mode whose query
    resolves the positive-source alias, every graph [get_batchgraph] returns
    is a [HeteroBatchGraph] exactly when the node-type list of the query has
    more than one entry or the configured edge-type list has more than one
    entry, repetitions counted; where both lists name each type once, that
    is: more than one distinct node type or more than one distinct edge
    type.  A heterogeneous graph gets one [(type, decoder)] node schema per
    node type of the query and one [(type, None)] edge schema per configured
    edge type; a homogeneous graph gets the single node schema made of the
    type and the decoder of the positive-source node, and no edge schema. *)
Theorem batchgraph_class_and_schema (self : Dataset) (n0 : DagNode) (k : nat) :
  get_node (_dag self) SubKeys.POS_SRC = Ok n0 ->
  pos_size self = Some k ->
  (exists g, get_batchgraph self SubKeys.POS_SRC = Ok (Some g))
  /\ forall alias g,
       get_batchgraph self alias = Ok (Some g) ->
       (bg_class g = HeteroBatchGraph
        <-> 1 < length (node_types (_dag self)) \/ 1 < length (edge_types self))
       /\ (NoDup (node_types (_dag self)) -> NoDup (edge_types self) ->
           (bg_class g = HeteroBatchGraph
            <-> 1 < distinct_count (node_types (_dag self))
                \/ 1 < distinct_count (edge_types self)))
       /\ (bg_class g = HeteroBatchGraph ->
           bg_node_schema g
           = TypedSchema (map (fun x => (x, graph_get_node_decoder (_dag self) x))
                              (node_types (_dag self)))
           /\ bg_edge_schema g = Some (map (fun x => (x, None)) (edge_types self)))
       /\ (bg_class g <> HeteroBatchGraph ->
           bg_class g = BatchGraph
           /\ bg_node_schema g = SingleSchema (node_type n0, decoder n0)
           /\ bg_edge_schema g = None).
Proof.
  intros Hsrc Hk.
  pose proof (batchgraph_schema_ok self n0 Hsrc) as Hschema.
  pose proof (several_types_spec self) as Hseveral.
  destruct (several_types self) eqn:Hcond.
  - assert (Hlt : 1 < length (node_types (_dag self)) \/ 1 < length (edge_types self))
      by by apply Hseveral.
    split.
    + rewrite (get_batchgraph_dispatch self k _ _ _ _ Hschema Hk). simpl. eauto.
    + intros alias g Hg.
      destruct (get_batchgraph_returns self k _ _ _ alias g Hschema Hk Hg)
        as (Hclass & Hns & Hes).
      split_and!.
      * done.
      * intros Hnodes Hedges. unfold distinct_count.
        by rewrite !remove_dups_NoDup by done.
      * done.
      * intros Hne. by rewrite Hclass in Hne.
  - assert (Hge : ~ (1 < length (node_types (_dag self)) \/ 1 < length (edge_types self)))
      by (intros Hlt; by apply Hseveral in Hlt).
    split.
    + rewrite (get_batchgraph_dispatch self k _ _ _ _ Hschema Hk). simpl. eauto.
    + intros alias g Hg.
      destruct (get_batchgraph_returns self k _ _ _ alias g Hschema Hk Hg)
        as (Hclass & Hns & Hes).
      split_and!.
      * rewrite Hclass. split; [done | by intros].
      * intros Hnodes Hedges. unfold distinct_count.
        rewrite !remove_dups_NoDup by done. rewrite Hclass. split; [done | by intros].
      * rewrite Hclass. done.
      * done.
Qed.

Lemma batchgraph_class_and_schema_witness :
  (exists g, get_batchgraph hetero_dataset "src" = Ok (Some g)
             /\ bg_class g = HeteroBatchGraph)
  /\ (exists g, get_batchgraph homo_dataset "src" = Ok (Some g)
                /\ bg_class g = BatchGraph
                /\ bg_node_schema g = SingleSchema ("item", item_decoder)).
Proof.
  destruct (batchgraph_class_and_schema hetero_dataset n_src_chain 11 eq_refl eq_refl)
    as [[g Hg] Hall].
  destruct (batchgraph_class_and_schema homo_dataset n_src_homo 7 eq_refl eq_refl)
    as [[g' Hg'] Hall'].
  destruct (Hall _ g Hg) as (Hlen & _ & _ & _).
  destruct (Hall' _ g' Hg') as (Hlen' & _ & _ & Hhomo).
  split.
  - exists g. split; [exact Hg|]. apply Hlen. left. simpl. lia.
  - exists g'. split; [exact Hg'|].
    destruct Hhomo as (Hclass & Hschema & _); [|by split].
    intros Hh. apply Hlen' in Hh. simpl in Hh. lia.
Defined.

(** C7 as it was stated fails where a type is listed twice: with the one
    edge type "i-i" configured twice over a query of one node type the
    graph is a [HeteroBatchGraph], and there is one distinct node type and
    one distinct edge type. *)
Lemma one_edge_type_twice_is_heterogeneous :
  exists g,
    get_batchgraph twice_configured_dataset SubKeys.POS_SRC = Ok (Some g)
    /\ bg_class g = HeteroBatchGraph
    /\ ~ (1 < distinct_count (node_types (_dag twice_configured_dataset))
          \/ 1 < distinct_count (edge_types twice_configured_dataset)).
Proof.
  eexists. split; [vm_compute; reflexivity|]. split; [reflexivity|].
  vm_compute. lia.
Qed.

(** ** get_egograph *)

Lemma node_hops_cons (pre dag_node : DagNode) (nodes : list DagNode) :
  node_hops pre (dag_node :: nodes)
  = (if is_TraverseEdgeDagNode pre then [] else [dag_node]) ++ node_hops dag_node nodes.
Proof.
  unfold node_hops, hops_with_pre. cbn [zip_with]. rewrite filter_cons.
  cbn [fst]. destruct (is_TraverseEdgeDagNode pre); by case_decide.
Qed.

Lemma edge_hops_cons (pre dag_node : DagNode) (nodes : list DagNode) :
  edge_hops pre (dag_node :: nodes)
  = (if is_TraverseEdgeDagNode pre then [dag_node] else []) ++ edge_hops dag_node nodes.
Proof.
  unfold edge_hops, hops_with_pre. cbn [zip_with]. rewrite filter_cons.
  cbn [fst]. destruct (is_TraverseEdgeDagNode pre); by case_decide.
Qed.

Lemma last_cons_default {A} (x d : A) (l : list A) :
  List.last (x :: l) d = List.last l x.
Proof.
  revert x d. induction l as [|y l IH]; intros x d; [done|].
  change (List.last (x :: y :: l) d) with (List.last (y :: l) d).
  by rewrite !IH.
Qed.

(** The three lists of an explicit traversal over [nodes] from [pre],
    appended to [acc]. *)
Lemma explicit_neighbors_chain (self : Dataset) (pre : DagNode) (neighbors : list string)
    (nodes : list DagNode) (acc : Nbrs) :
  explicit_chain (_dag self) pre neighbors nodes ->
  explicit_neighbors self pre neighbors acc
  = Ok {| nbr_nodes := nbr_nodes acc ++ map get_alias (node_hops pre nodes);
          nbr_edges := nbr_edges acc ++ map get_alias (edge_hops pre nodes);
          nbr_nums := nbr_nums acc
                      ++ map (fun n => shape_last (shape n)) (node_hops pre nodes) |}.
Proof.
  intros Hchain. revert acc.
  induction Hchain as [pre|pre nbr dag_node neighbors nodes Hnode Hin _ IH]; intros acc.
  - destruct acc. simpl. by rewrite !app_nil_r.
  - cbn [explicit_neighbors]. rewrite Hnode. cbn [mbind result_bind].
    rewrite Hin. cbn [negb]. rewrite IH, node_hops_cons, edge_hops_cons.
    destruct (is_TraverseEdgeDagNode pre); simpl; by rewrite <- ?app_assoc.
Qed.

(** An explicit traversal stops with [ValueError] at the first alias whose
    node is not a downstream of the node before it. *)
Lemma explicit_neighbors_not_downstream (self : Dataset) (pre : DagNode)
    (valid : list string) (nodes : list DagNode) (nbr : string) (dag_node : DagNode)
    (rest : list string) (acc : Nbrs) :
  explicit_chain (_dag self) pre valid nodes ->
  get_node (_dag self) nbr = Ok dag_node ->
  node_in dag_node (pos_downstreams (List.last nodes pre)
                    ++ neg_downstreams (List.last nodes pre)) = false ->
  explicit_neighbors self pre (valid ++ nbr :: rest) acc
  = Raise (ValueError (not_downstream_msg dag_node (List.last nodes pre))).
Proof.
  intros Hchain Hnode Hnotin. revert acc.
  induction Hchain as [pre|pre nbr' dag_node' valid nodes Hnode' Hin' Hchain IH];
    intros acc.
  - cbn [app explicit_neighbors]. rewrite Hnode. cbn [mbind result_bind].
    simpl in Hnotin. by rewrite Hnotin.
  - cbn [app explicit_neighbors]. rewrite Hnode'. cbn [mbind result_bind].
    rewrite Hin'. cbn [negb].
    rewrite last_cons_default in *. by apply IH.
Qed.

(** C8. With a source alias the query resolves, [get_egograph] in explicit
    mode (a [neighbors] argument that is true) raises [ValueError] when the
    argument is not a list, and when, after a chain of valid hops, the next
    alias names a node that is not among the positive and negative
    downstreams of the node before it; on a valid chain it returns the
    EgoGraph built from the hops whose predecessor is an edge node as
    edge-hops, the others as node-hops, with a neighbor count (the last
    entry of the node's shape) for the node-hops only. *)
Theorem explicit_egograph (self : Dataset) (source : string) (source_node : DagNode) :
  get_node (_dag self) source = Ok source_node ->
  get_egograph self source (NbrOther true) = Raise (ValueError not_a_list_msg)
  /\ (forall valid nodes nbr dag_node rest,
        explicit_chain (_dag self) source_node valid nodes ->
        get_node (_dag self) nbr = Ok dag_node ->
        node_in dag_node (pos_downstreams (List.last nodes source_node)
                          ++ neg_downstreams (List.last nodes source_node)) = false ->
        get_egograph self source (NbrList (valid ++ nbr :: rest))
        = Raise (ValueError (not_downstream_msg dag_node (List.last nodes source_node))))
  /\ (forall neighbors nodes,
        neighbors <> [] ->
        explicit_chain (_dag self) source_node neighbors nodes ->
        get_egograph self source (NbrList neighbors)
        = return_EgoGraph self (get_data_dict self) source
            {| nbr_nodes := map get_alias (node_hops source_node nodes);
               nbr_edges := map get_alias (edge_hops source_node nodes);
               nbr_nums := map (fun n => shape_last (shape n))
                               (node_hops source_node nodes) |}).
Proof.
  intros Hsrc. split_and!.
  - unfold get_egograph. rewrite Hsrc. reflexivity.
  - intros valid nodes nbr dag_node rest Hchain Hnode Hnotin.
    unfold get_egograph. rewrite Hsrc. cbn [mbind result_bind].
    assert (Htrue : truthy (NbrList (valid ++ nbr :: rest)) = true).
    { unfold truthy. rewrite bool_decide_false; [done|]. by destruct valid. }
    rewrite Htrue.
    by rewrite (explicit_neighbors_not_downstream self _ _ _ _ _ _ _ Hchain Hnode Hnotin).
  - intros neighbors nodes Hne Hchain.
    unfold get_egograph. rewrite Hsrc. cbn [mbind result_bind].
    assert (Htrue : truthy (NbrList neighbors) = true).
    { unfold truthy. by rewrite bool_decide_false. }
    rewrite Htrue, (explicit_neighbors_chain self _ _ _ _ Hchain). reflexivity.
Qed.

Lemma explicit_egograph_witness :
  get_egograph raw_fork_dataset "src" (NbrOther true) = Raise (ValueError not_a_list_msg)
  /\ get_egograph raw_fork_dataset "src" (NbrList ["e"; "hop2"])
     = Raise (ValueError "hop2 is not the downstream of e.")
  /\ get_egograph raw_fork_dataset "src" (NbrList ["e"; "dst"])
     = return_EgoGraph raw_fork_dataset (get_data_dict raw_fork_dataset) "src"
         {| nbr_nodes := ["e"]; nbr_edges := ["dst"]; nbr_nums := [6] |}.
Proof.
  destruct (explicit_egograph raw_fork_dataset "src" n_src_fork eq_refl)
    as (Hlist & Hbad & Hgood).
  split_and!.
  - exact Hlist.
  - apply (Hbad ["e"] [n_e] "hop2" n_hop2 []).
    + eapply explicit_chain_cons; [reflexivity | reflexivity | constructor].
    + reflexivity.
    + reflexivity.
  - apply (Hgood ["e"; "dst"] [n_e; n_dst]); [done|].
    eapply explicit_chain_cons; [reflexivity | reflexivity |].
    eapply explicit_chain_cons; [reflexivity | reflexivity | constructor].
Defined.

(** The vertex hops and the edge hops of an automatic traversal. *)
Lemma automatic_neighbors_chain (pre : DagNode) (source : string) (node : DagNode)
    (hops : list DagNode) (last : DagNode) (acc : Nbrs) :
  pos_chain node hops last ->
  automatic_neighbors pre source node acc
  = automatic_neighbors pre source last
      {| nbr_nodes := nbr_nodes acc
                      ++ map get_alias
                           (filter (fun n => is_TraverseEdgeDagNode n = false) hops);
         nbr_edges := nbr_edges acc
                      ++ map get_alias
                           (filter (fun n => is_TraverseEdgeDagNode n = true) hops);
         nbr_nums := nbr_nums acc
                     ++ map (fun n => shape_last (shape n))
                            (filter (fun n => is_TraverseEdgeDagNode n = false) hops) |}.
Proof.
  intros Hchain. revert acc.
  induction Hchain as [node|node cur hops last Hcur _ IH]; intros acc.
  - destruct acc. simpl. by rewrite !app_nil_r.
  - destruct node as [a e t sh d sp pos neg]. simpl in Hcur. subst pos.
    cbn [automatic_neighbors pos_downstreams]. rewrite IH, !filter_cons.
    destruct (is_TraverseEdgeDagNode cur); repeat case_decide; try done;
      simpl; by rewrite <- ?app_assoc.
Qed.

Lemma automatic_neighbors_end (pre : DagNode) (source : string) (last : DagNode)
    (acc : Nbrs) :
  pos_downstreams last = [] -> automatic_neighbors pre source last acc = Ok acc.
Proof. destruct last; simpl. by intros ->. Qed.

Lemma automatic_neighbors_ambiguous (pre : DagNode) (source : string) (last : DagNode)
    (acc : Nbrs) :
  1 < length (pos_downstreams last) ->
  automatic_neighbors pre source last acc
  = Raise (ValueError (multiple_downstreams_msg pre source)).
Proof.
  destruct last as [a e t sh d sp [|c1 [|c2 pos]] neg]; simpl; intros; by try lia.
Qed.

Lemma mapM_covered {A B} (f : A -> result B) (l : list A) :
  Forall (fun a => exists b, f a = Ok b) l ->
  exists bs, mapM f l = Ok bs /\ length bs = length l.
Proof.
  induction 1 as [|a l [b Hb] _ (bs & Hbs & Hlen)]; simpl.
  - by exists [].
  - exists (b :: bs). rewrite Hb. simpl. rewrite Hbs. simpl. by rewrite Hlen.
Qed.

Lemma type_and_feat_spec_covered (self : Dataset) (v : string) (n : DagNode) :
  get_node (_dag self) v = Ok n ->
  type_and_feat_spec self v = Ok (node_type n, feature_spec (decoder n)).
Proof. intros Hn. unfold type_and_feat_spec. by rewrite Hn. Qed.

(** When the data dict and the query hold the source and every collected
    alias, the [return] statement builds the EgoGraph. *)
Lemma return_EgoGraph_covered (self : Dataset) (source : string) (nbrs : Nbrs) :
  covered self (source :: nbr_nodes nbrs ++ nbr_edges nbrs) ->
  exists g,
    return_EgoGraph self (get_data_dict self) source nbrs = Ok g
    /\ length (ego_nbr_nodes g) = length (nbr_nodes nbrs)
    /\ length (ego_nbr_edges g) = length (nbr_edges nbrs)
    /\ ego_nbr_nums g = nbr_nums nbrs.
Proof.
  unfold covered. intros Hcov.
  destruct (Forall_inv Hcov) as [[src Hsrc] [n Hn]].
  apply Forall_inv_tail, Forall_app in Hcov as [Hnodes Hedges].
  destruct (mapM_covered (dict_getitem (get_data_dict self)) (nbr_nodes nbrs))
    as (nodes & Hnodes' & Hlen1).
  { eapply Forall_impl; [|exact Hnodes]. by intros a [? _]. }
  destruct (mapM_covered (dict_getitem (get_data_dict self)) (nbr_edges nbrs))
    as (edges & Hedges' & Hlen2).
  { eapply Forall_impl; [|exact Hedges]. by intros a [? _]. }
  destruct (mapM_covered (type_and_feat_spec self) (source :: nbr_nodes nbrs))
    as (node_schema & Hns & _).
  { constructor.
    - eexists. by apply type_and_feat_spec_covered.
    - eapply Forall_impl; [|exact Hnodes]. intros a [_ [m Hm]].
      eexists. by apply type_and_feat_spec_covered. }
  destruct (mapM_covered (type_and_feat_spec self) (nbr_edges nbrs))
    as (edge_schema & Hes & _).
  { eapply Forall_impl; [|exact Hedges]. intros a [_ [m Hm]].
    eexists. by apply type_and_feat_spec_covered. }
  eexists. unfold return_EgoGraph.
  rewrite Hsrc. cbn [mbind result_bind]. rewrite Hnodes'. cbn [mbind result_bind].
  rewrite Hns. cbn [mbind result_bind]. rewrite Hedges'. cbn [mbind result_bind].
  rewrite Hes. cbn [mbind result_bind]. split; [reflexivity|]. by simpl.
Qed.

Lemma filter_edge_split (hops : list DagNode) :
  length (filter (fun n => is_TraverseEdgeDagNode n = false) hops)
  + length (filter (fun n => is_TraverseEdgeDagNode n = true) hops)
  = length hops.
Proof.
  induction hops as [|n hops IH]; [done|]. rewrite !filter_cons.
  destruct (is_TraverseEdgeDagNode n); repeat case_decide; try done; simpl; lia.
Qed.

Lemma covered_filter (self : Dataset) (hops : list DagNode) (P : DagNode -> Prop)
    `{!forall n, Decision (P n)} :
  covered self (map get_alias hops) -> covered self (map get_alias (filter P hops)).
Proof.
  unfold covered. rewrite !Forall_forall. intros Hcov a Ha. apply Hcov.
  apply list_elem_of_In, list_elem_of_fmap in Ha as (n & -> & Hn).
  apply list_elem_of_In, list_elem_of_fmap. exists n. split; [done|].
  by apply list_elem_of_filter in Hn as [_ ?].
Qed.

(** C9. With a source alias the query resolves and no [neighbors],
    [get_egograph] follows the positive downstreams from the source node.
    When the node reached along a chain of single positive downstreams has
    more than one positive downstream, it raises [ValueError].  When the
    chain ends (its last node has no positive downstream) and the data dict
    and the query hold the source and the aliases of the chain, it returns
    an EgoGraph whose hops, node-hops and edge-hops together, are as many as
    the chain is deep, with one neighbor count per node-hop. *)
Theorem automatic_egograph (self : Dataset) (source : string) (source_node : DagNode) :
  get_node (_dag self) source = Ok source_node ->
  (forall hops last,
     pos_chain source_node hops last ->
     1 < length (pos_downstreams last) ->
     get_egograph self source NbrNone
     = Raise (ValueError (multiple_downstreams_msg source_node source)))
  /\ (forall hops last,
        pos_chain source_node hops last ->
        pos_downstreams last = [] ->
        covered self (source :: map get_alias hops) ->
        exists g,
          get_egograph self source NbrNone = Ok g
          /\ length (ego_nbr_nodes g) + length (ego_nbr_edges g) = length hops
          /\ length (ego_nbr_nodes g)
             = length (filter (fun n => is_TraverseEdgeDagNode n = false) hops)
          /\ ego_nbr_nums g
             = map (fun n => shape_last (shape n))
                   (filter (fun n => is_TraverseEdgeDagNode n = false) hops)).
Proof.
  intros Hsrc. split.
  - intros hops last Hchain Hmany.
    unfold get_egograph. rewrite Hsrc. cbn [mbind result_bind truthy].
    rewrite (automatic_neighbors_chain _ _ _ _ _ _ Hchain).
    by rewrite automatic_neighbors_ambiguous.
  - intros hops last Hchain Hend Hcov.
    unfold get_egograph. rewrite Hsrc. cbn [mbind result_bind truthy].
    rewrite (automatic_neighbors_chain _ _ _ _ _ _ Hchain).
    rewrite automatic_neighbors_end by done.
    cbn [mbind result_bind no_nbrs nbr_nodes nbr_edges nbr_nums app].
    destruct (return_EgoGraph_covered self source
      {| nbr_nodes := map get_alias
                        (filter (fun n => is_TraverseEdgeDagNode n = false) hops);
         nbr_edges := map get_alias
                        (filter (fun n => is_TraverseEdgeDagNode n = true) hops);
         nbr_nums := map (fun n => shape_last (shape n))
                        (filter (fun n => is_TraverseEdgeDagNode n = false) hops) |})
      as (g & Hg & Hnodes & Hedges & Hnums).
    { cbn [nbr_nodes nbr_edges]. unfold covered in *.
      pose proof (Forall_inv Hcov) as Hhd. apply Forall_inv_tail in Hcov.
      constructor; [done|]. apply Forall_app. split; by apply covered_filter. }
    exists g. cbn [nbr_nodes nbr_edges nbr_nums app] in *.
    rewrite Hg, Hnodes, Hedges, Hnums, !length_map. split_and!; try done.
    apply filter_edge_split.
Qed.

Lemma automatic_egograph_witness :
  get_egograph raw_fork_dataset "src" NbrNone
  = Raise (ValueError (multiple_downstreams_msg n_src_fork "src"))
  /\ exists g,
       get_egograph raw_chain_dataset "src" NbrNone = Ok g
       /\ length (ego_nbr_nodes g) + length (ego_nbr_edges g) = 2
       /\ ego_nbr_nums g = [5; 3].
Proof.
  split.
  - apply (proj1 (automatic_egograph raw_fork_dataset "src" n_src_fork eq_refl)
             [] n_src_fork); [constructor | simpl; lia].
  - destruct (proj2 (automatic_egograph raw_chain_dataset "src" n_src_chain eq_refl)
                [n_hop1; n_hop2] n_hop2) as (g & Hg & Hlen & _ & Hnums).
    + eapply pos_chain_cons; [reflexivity|].
      eapply pos_chain_cons; [reflexivity | constructor].
    + reflexivity.
    + repeat constructor; eexists; vm_compute; reflexivity.
    + exists g. split_and!; [exact Hg | exact Hlen | exact Hnums].
Defined.

(** C10. An empty list as [neighbors] is the automatic mode: the result is
    that of a call without neighbors, whatever the dataset and the source.
    So it still raises the ambiguity [ValueError] of the automatic mode
    (sample: the forked query), and where the walk succeeds the EgoGraph has
    the hops found on the way and not the empty lists the explicit loop
    gives on an empty list (sample: the chain query). *)
Theorem empty_neighbors_is_automatic :
  (forall (self : Dataset) (source : string),
     get_egograph self source (NbrList []) = get_egograph self source NbrNone)
  /\ get_egograph raw_fork_dataset "src" (NbrList [])
     = Raise (ValueError (multiple_downstreams_msg n_src_fork "src"))
  /\ (exists g,
        get_egograph raw_chain_dataset "src" (NbrList []) = Ok g
        /\ length (ego_nbr_nodes g) = 2
        /\ ego_nbr_nums g = [5; 3])
  /\ (forall (self : Dataset) (pre : DagNode),
        explicit_neighbors self pre [] no_nbrs = Ok no_nbrs).
Proof.
  split_and!.
  - reflexivity.
  - vm_compute. reflexivity.
  - eexists. split; [vm_compute; reflexivity|]. split; reflexivity.
  - reflexivity.
Qed.

(** On the chain src -> e -> dst the two modes file the hops differently:
    the explicit mode goes by the kind of the predecessor (e follows a
    vertex, dst follows an edge node), the automatic mode by the kind of the
    hop itself. *)
Lemma explicit_and_automatic_classify_differently :
  get_egograph raw_edge_chain_dataset "src" (NbrList ["e"; "dst"])
  = return_EgoGraph raw_edge_chain_dataset (get_data_dict raw_edge_chain_dataset) "src"
      {| nbr_nodes := ["e"]; nbr_edges := ["dst"]; nbr_nums := [6] |}
  /\ get_egograph raw_edge_chain_dataset "src" NbrNone
      = return_EgoGraph raw_edge_chain_dataset (get_data_dict raw_edge_chain_dataset) "src"
          {| nbr_nodes := ["dst"]; nbr_edges := ["e"]; nbr_nums := [7] |}.
Proof. split; reflexivity. Qed.

(** ** The generators *)

Section GeneratorProperties.
Context {S G V : Type}.
Implicit Types (src : Source S G V) (ops : BatchGraphOps G V) (self : Dataset).
Implicit Types (body : S -> result (list V) * S) (s : S).

Lemma dataset_generator_next src ops self :
  dataset_generator src ops self = generator_next (generator_body src ops self).
Proof. unfold dataset_generator, generator_body. by destruct (_induce_func self). Qed.

Lemma pulls_finished body (n : nat) s :
  pulls (generator_next body) n (Finished s) = (replicate n StopIteration, Finished s).
Proof. induction n as [|n IH]; simpl; [done|]. by rewrite IH. Qed.

Lemma pulls_serves body s (units : list (list V)) s' (n : nat) :
  serves body s units s' ->
  pulls (generator_next body) (length units + n) (Running s)
  = (map Yielded units ++ fst (pulls (generator_next body) n (Running s')),
     snd (pulls (generator_next body) n (Running s'))).
Proof.
  induction 1 as [s|s t s1 ts s' Hbody _ IH]; simpl.
  - by destruct (pulls _ _ _).
  - rewrite Hbody, IH. reflexivity.
Qed.

Lemma pulls_exhausted body s e_state (n : nat) :
  body s = (Raise OutOfRangeError, e_state) ->
  pulls (generator_next body) (Datatypes.S n) (Running s)
  = (replicate (Datatypes.S n) StopIteration, Finished e_state).
Proof. intros Hbody. simpl. by rewrite Hbody, pulls_finished. Qed.

(** The body of the raw generator is the pull itself. *)
Lemma raw_body_is_pull src ops self :
  _induce_func self = None ->
  generator_body src ops self = get_flatten_values src.
Proof. intros Hraw. unfold generator_body. by rewrite Hraw. Qed.

(** In batch mode a pull that gives subgraphs, at least one, makes the body
    give the flatten of the subgraphs followed by the flatten of the
    negative subgraphs when there are any, both by the class of the first
    subgraph; a pull that raises makes the body raise the same. *)
Lemma batch_body_of_pull src ops self (f : InduceFunc) s :
  _induce_func self = Some f ->
  (forall g0 gs neg s1,
     get_subgraphs src (Some f) s = (Ok (g0 :: gs, neg), s1) ->
     generator_body src ops self s
     = (Ok (flatten_as ops self g0 (g0 :: gs)
            ++ match neg with
               | Some neg_subgraphs => flatten_as ops self g0 neg_subgraphs
               | None => []
               end), s1))
  /\ (forall e s1,
        get_subgraphs src (Some f) s = (Raise e, s1) ->
        generator_body src ops self s = (Raise e, s1)).
Proof.
  intros Hbatch. unfold generator_body, batchgraph_flatten_body, flatten_as.
  rewrite Hbatch. split.
  - intros g0 gs neg s1 ->.
    destruct (isinstance_SubGraph ops g0), neg; by rewrite ?app_nil_r.
  - by intros e s1 ->.
Qed.

(** C5, as the code has it.  The generator the dataset uses (raw or batch
    mode): while the body of its loop gives units, each [next()] yields
    exactly that unit; at the first pull on which the source raises
    [OutOfRangeError] the [next()] ends with [StopIteration], not with the
    error, and so does every later [next()], without pulling from the source
    again: the source stays in the state the exhausted pull left it in.  In
    raw mode the unit is what the pull [get_flatten_values] returns.  In
    batch mode, for a pull of at least one subgraph, the unit is the flatten
    of the pulled subgraphs followed by the flatten of the negative
    subgraphs when there are any, by the batch class of the first subgraph;
    and the body raises what [get_subgraphs] raises. *)
Theorem generator_yields_until_exhausted src ops self s (units : list (list V)) s'
    (n : nat) :
  serves (generator_body src ops self) s units s' ->
  fst (generator_body src ops self s') = Raise OutOfRangeError ->
  pulls (dataset_generator src ops self) (length units + Datatypes.S n) (Running s)
  = (map Yielded units ++ replicate (Datatypes.S n) StopIteration,
     Finished (snd (generator_body src ops self s')))
  /\ (_induce_func self = None ->
      generator_body src ops self = get_flatten_values src)
  /\ (forall f s0,
        _induce_func self = Some f ->
        (forall g0 gs neg s1,
           get_subgraphs src (Some f) s0 = (Ok (g0 :: gs, neg), s1) ->
           generator_body src ops self s0
           = (Ok ((if isinstance_SubGraph ops g0
                   then BatchGraph_flatten ops (g0 :: gs) (_additional_keys self)
                   else HeteroBatchGraph_flatten ops (g0 :: gs)
                          (node_types (_dag self)) (edge_types self))
                  ++ match neg with
                     | Some neg_subgraphs =>
                         if isinstance_SubGraph ops g0
                         then BatchGraph_flatten ops neg_subgraphs (_additional_keys self)
                         else HeteroBatchGraph_flatten ops neg_subgraphs
                                (node_types (_dag self)) (edge_types self)
                     | None => []
                     end), s1))
        /\ (forall e s1,
              get_subgraphs src (Some f) s0 = (Raise e, s1) ->
              generator_body src ops self s0 = (Raise e, s1))).
Proof.
  intros Hserves Hend. split_and!.
  - rewrite dataset_generator_next, (pulls_serves _ _ _ _ _ Hserves).
    destruct (generator_body src ops self s') as [r e_state] eqn:Hbody.
    simpl in Hend. subst r. by rewrite (pulls_exhausted _ _ _ _ Hbody).
  - apply raw_body_is_pull.
  - intros f s0 Hbatch. by apply batch_body_of_pull.
Qed.

End GeneratorProperties.

Lemma generator_yields_until_exhausted_witness :
  (exists unit,
     pulls (dataset_generator (sample_source raw_chain_dataset false)
              (spec_BatchGraphOps raw_chain_dataset) raw_chain_dataset) 5 (Running 0)
     = ([Yielded unit; Yielded unit; StopIteration; StopIteration; StopIteration],
        Finished 3)
     /\ fst (get_flatten_values (sample_source raw_chain_dataset false) 3) = Ok unit)
  /\ pulls (dataset_generator (sample_source homo_dataset false)
              (spec_BatchGraphOps homo_dataset) homo_dataset) 4 (Running 1)
     = ([Yielded (spec_BatchGraph_flatten homo_dataset
                    [ {| is_SubGraph := true |}; {| is_SubGraph := true |} ]
                    ["struct_label"]);
         StopIteration; StopIteration; StopIteration], Finished 3).
Proof.
  split.
  - eexists. split; [|reflexivity].
    apply (generator_yields_until_exhausted
             (sample_source raw_chain_dataset false)
             (spec_BatchGraphOps raw_chain_dataset) raw_chain_dataset
             0 [_; _] 2 2).
    + eapply serves_cons; [reflexivity|]. eapply serves_cons; [reflexivity|].
      apply serves_nil.
    + reflexivity.
  - apply (generator_yields_until_exhausted
             (sample_source homo_dataset false)
             (spec_BatchGraphOps homo_dataset) homo_dataset
             1 [_] 2 2).
    + eapply serves_cons; [reflexivity | apply serves_nil].
    + reflexivity.
Defined.

(** C5 as it was stated fails in batch mode on a pull that succeeds with no
    subgraph: the source returns, the generator yields nothing and raises
    [IndexError]. *)
Lemma successful_empty_pull_yields_nothing :
  get_subgraphs empty_batch_source (_induce_func homo_dataset) 0 = (Ok ([], None), 1)
  /\ fst (dataset_generator empty_batch_source (spec_BatchGraphOps homo_dataset)
            homo_dataset (Running 0)) = Raised IndexError
  /\ ~ (exists t,
          fst (dataset_generator empty_batch_source (spec_BatchGraphOps homo_dataset)
                 homo_dataset (Running 0)) = Yielded t).
Proof. split_and!; [reflexivity | reflexivity |]. by intros [t Ht]. Qed.

(** ** Declared fields against yielded tuples *)

(** The length of the block of batch-mode declarations. *)
Lemma batch_block_length (self : Dataset) :
  _additional_keys self
  = match _additional_spec self with Some spec => dict_keys spec | None => [] end ->
  exists types shapes,
    _batchgraph_types_and_shapes self = Ok (types, shapes)
    /\ length types
       = length (edge_types self)
         + length (flat_map (node_type_fields self) (node_types (_dag self)))
         + length (_additional_keys self).
Proof.
  intros Hkeys. destruct (batch_block self Hkeys) as (extra & Hblock & Hextra).
  eexists _, _. split; [exact Hblock|].
  rewrite !length_map, !length_app, !length_map.
  apply Forall2_length in Hextra. lia.
Qed.

(** The tuple the batch generator builds from heterogeneous subgraphs does
    not depend on the additional keys of the dataset. *)
Lemma hetero_body_ignores_additional_keys {S G V} (src : Source S G V)
    (ops : BatchGraphOps G V) (self1 self2 : Dataset) (s s1 : S) (g0 : G)
    (gs : list G) (neg : option (list G)) :
  _dag self1 = _dag self2 ->
  edge_types self1 = edge_types self2 ->
  _induce_func self1 = _induce_func self2 ->
  get_subgraphs src (_induce_func self1) s = (Ok (g0 :: gs, neg), s1) ->
  isinstance_SubGraph ops g0 = false ->
  batchgraph_flatten_body src ops self1 s = batchgraph_flatten_body src ops self2 s.
Proof.
  intros Hdag Hedges Hf Hpull Hhetero. unfold batchgraph_flatten_body.
  rewrite <- Hf, Hpull, Hhetero, Hdag, Hedges. reflexivity.
Qed.

(** C1, where the code departs from it.  Take two datasets built in batch
    mode from the same query, induce function and edge types, with
    additional specs of different sizes.  On a pull of heterogeneous
    subgraphs both generators yield the same tuple, whatever
    [HeteroBatchGraph.from_graphs] and [flatten] compute, because the
    heterogeneous branch hands them neither the additional keys nor the
    spec; the two declared sequences differ in length, because the declarer
    adds one field per additional key.  So the yielded tuple does not have
    the declared length in both datasets. *)
Theorem hetero_tuple_ignores_additional_spec {S G V} (src : Source S G V)
    (ops : BatchGraphOps G V) RawDataset_new query window f spec1 spec2 configured
    (s s1 : S) (g0 : G) (gs : list G) (neg : option (list G)) :
  get_subgraphs src (Some f) s = (Ok (g0 :: gs, neg), s1) ->
  isinstance_SubGraph ops g0 = false ->
  length (match spec1 with Some d => dict_keys d | None => [] end)
  <> length (match spec2 with Some d => dict_keys d | None => [] end) ->
  exists self1 self2 it1 it2 t,
    __init__ RawDataset_new query window (Some f) spec1 configured = Ok self1
    /\ __init__ RawDataset_new query window (Some f) spec2 configured = Ok self2
    /\ _iterator self1 = Some it1
    /\ _iterator self2 = Some it2
    /\ dataset_generator src ops self1 (Running s) = (Yielded t, Running s1)
    /\ dataset_generator src ops self2 (Running s) = (Yielded t, Running s1)
    /\ length (output_types it1) <> length (output_types it2)
    /\ ~ (length t = length (output_types it1) /\ length t = length (output_types it2)).
Proof.
  intros Hpull Hhetero Hkeys.
  cut (exists self1 self2 it1 it2 t,
    __init__ RawDataset_new query window (Some f) spec1 configured = Ok self1
    /\ __init__ RawDataset_new query window (Some f) spec2 configured = Ok self2
    /\ _iterator self1 = Some it1
    /\ _iterator self2 = Some it2
    /\ dataset_generator src ops self1 (Running s) = (Yielded t, Running s1)
    /\ dataset_generator src ops self2 (Running s) = (Yielded t, Running s1)
    /\ length (output_types it1) <> length (output_types it2)).
  { intros (self1 & self2 & it1 & it2 & t & H1 & H2 & H3 & H4 & H5 & H6 & H7).
    exists self1, self2, it1, it2, t. split_and!; try done.
    intros [Ha Hb]. apply H7. by rewrite <- Ha, <- Hb. }
  destruct (init_batch_mode RawDataset_new query window f spec1 configured)
    as (types1 & shapes1 & Hblock1 & _ & Hinit1).
  destruct (init_batch_mode RawDataset_new query window f spec2 configured)
    as (types2 & shapes2 & Hblock2 & _ & Hinit2).
  destruct (batch_block_length _ (init_attributes_keys RawDataset_new query window
              (Some f) spec1 configured)) as (t1 & sh1 & Hb1 & Hlen1).
  destruct (batch_block_length _ (init_attributes_keys RawDataset_new query window
              (Some f) spec2 configured)) as (t2 & sh2 & Hb2 & Hlen2).
  rewrite Hblock1 in Hb1. rewrite Hblock2 in Hb2. simplify_eq.
  set (self1 := set_iterator _ _) in Hinit1. set (self2 := set_iterator _ _) in Hinit2.
  assert (Hbody : batchgraph_flatten_body src ops self1 s
                  = batchgraph_flatten_body src ops self2 s).
  { by apply (hetero_body_ignores_additional_keys src ops self1 self2 s s1 g0 gs neg). }
  assert (Hyield : exists t, batchgraph_flatten_body src ops self2 s = (Ok t, s1)).
  { unfold batchgraph_flatten_body.
    change (_induce_func self2) with (Some f). rewrite Hpull, Hhetero. eauto. }
  destruct Hyield as [t Ht].
  exists self1, self2, (batch_iterator query t1 sh1), (batch_iterator query t2 sh2), t.
  split_and!; try done.
  - change (dataset_generator src ops self1)
      with (generator_next (batchgraph_flatten_body src ops self1)).
    unfold generator_next. by rewrite Hbody, Ht.
  - change (dataset_generator src ops self2)
      with (generator_next (batchgraph_flatten_body src ops self2)).
    unfold generator_next. by rewrite Ht.
  - unfold batch_iterator; cbn [output_types]. rewrite !length_app.
    cbn [_additional_keys init_attributes] in Hlen1, Hlen2.
    change (node_type_fields (init_attributes RawDataset_new query window (Some f)
                                spec1 configured))
      with (node_type_fields (init_attributes RawDataset_new query window (Some f)
                                spec2 configured)) in Hlen1.
    cbn [edge_types _dag init_attributes] in Hlen1, Hlen2.
    case_bool_decide; simpl; lia.
Qed.

Lemma hetero_tuple_ignores_additional_spec_witness :
  exists self1 self2 it1 it2 t,
    __init__ sample_RawDataset fork_query 5 (Some sample_induce_func)
             (Some struct_label_spec) None = Ok self1
    /\ __init__ sample_RawDataset fork_query 5 (Some sample_induce_func) None None
       = Ok self2
    /\ _iterator self1 = Some it1
    /\ _iterator self2 = Some it2
    /\ dataset_generator (sample_source hetero_plain_dataset true)
         (spec_BatchGraphOps hetero_plain_dataset) self1 (Running 0)
       = (Yielded t, Running 1)
    /\ dataset_generator (sample_source hetero_plain_dataset true)
         (spec_BatchGraphOps hetero_plain_dataset) self2 (Running 0)
       = (Yielded t, Running 1)
    /\ length (output_types it1) <> length (output_types it2)
    /\ ~ (length t = length (output_types it1) /\ length t = length (output_types it2)).
Proof.
  eapply (hetero_tuple_ignores_additional_spec
            (sample_source hetero_plain_dataset true)
            (spec_BatchGraphOps hetero_plain_dataset)
            sample_RawDataset fork_query 5 sample_induce_func
            (Some struct_label_spec) None None 0 1).
  - reflexivity.
  - reflexivity.
  - simpl. lia.
Defined.

(** The same on the sample query, with the flatten of the batch graph
    classes as the spec describes it.  In batch mode with heterogeneous
    subgraphs and an additional spec of one key the dataset declares eleven
    fields, the last one for the additional key, and the generator yields a
    tuple of ten arrays, none for the additional key.  With homogeneous
    subgraphs, where [BatchGraph.from_graphs] is given the additional keys,
    and with heterogeneous subgraphs and no additional spec, the tuple has
    the declared length. *)
Theorem hetero_additional_field_declared_not_yielded :
  (exists it t g,
     __init__ sample_RawDataset fork_query 5 (Some sample_induce_func)
              (Some struct_label_spec) None = Ok hetero_fork_dataset
     /\ _iterator hetero_fork_dataset = Some it
     /\ _batchgraph_flatten_generator (sample_source hetero_fork_dataset true)
          (spec_BatchGraphOps hetero_fork_dataset) hetero_fork_dataset (Running 0)
        = (Yielded t, g)
     /\ length (output_types it) = 11
     /\ output_types it !! 10 = Some tf_int64
     /\ length t = 10
     /\ additional "struct_label" ∉ t)
  /\ (exists it t g,
        _iterator hetero_plain_dataset = Some it
        /\ _batchgraph_flatten_generator (sample_source hetero_plain_dataset true)
             (spec_BatchGraphOps hetero_plain_dataset) hetero_plain_dataset (Running 0)
           = (Yielded t, g)
        /\ length (output_types it) = 10
        /\ length t = 10)
  /\ (exists it t g,
        _iterator homo_dataset = Some it
        /\ _batchgraph_flatten_generator (sample_source homo_dataset false)
             (spec_BatchGraphOps homo_dataset) homo_dataset (Running 0)
           = (Yielded t, g)
        /\ length (output_types it) = 7
        /\ length t = 7
        /\ additional "struct_label" ∈ t).
Proof.
  split_and!.
  - eexists _, _, _. split_and!; try (vm_compute; reflexivity). by_decide.
  - eexists _, _, _. split_and!; vm_compute; reflexivity.
  - eexists _, _, _. split_and!; try (vm_compute; reflexivity). by_decide.
Qed.

(** * Further properties of the code *)

(** ** Construction: the values tuple against the declared schema *)

Lemma raw_declare_loop_lengths (self : Dataset) (keys : list string)
    (acc out : list DType * list TensorShape) :
  for_each (raw_declare_alias self) keys acc = Ok out ->
  length (fst acc) = length (snd acc) ->
  length (fst out) = length (snd out).
Proof.
  revert acc. induction keys as [|alias keys IH]; intros acc; cbn [for_each].
  - by intros [= <-].
  - destruct (get_node (_dag self) alias) as [node|e] eqn:Hnode.
    + rewrite (raw_declare_alias_ok _ _ _ _ Hnode). cbn [mbind result_bind].
      intros Hloop Hacc. apply (IH _ Hloop). cbn [fst snd].
      rewrite !length_app, !length_map. lia.
    + assert (Hraise : raw_declare_alias self acc alias = Raise e)
        by (unfold raw_declare_alias; by rewrite Hnode).
      by rewrite Hraise.
Qed.

Lemma imap_positions {A} (l : list A) (k : nat) :
  imap (fun i _ => k + i) l = seq k (length l).
Proof.
  revert k. induction l as [|x l IH]; intros k; [done|].
  cbn [imap seq length]. rewrite Nat.add_0_r. f_equal.
  rewrite <- IH. apply imap_ext. intros i y _. simpl. lia.
Qed.

Lemma get_next_positions (it : Iterator) :
  length (output_types it) = length (output_shapes it) ->
  map tensor_pos (get_next it) = seq 0 (length (output_types it)).
Proof.
  intros Hlen. unfold get_next.
  change (map tensor_pos ?l) with (tensor_pos <$> l). rewrite fmap_imap.
  rewrite (imap_ext _ (fun i _ => 0 + i)) by done. rewrite imap_positions.
  by rewrite length_zip_with_l_eq.
Qed.

(** After [__init__], in raw and in batch mode alike, the iterator runs the
    generator of the mode, its types and shapes are equally many, and
    [_values] holds one tensor per declared field, in order: tensor [i] is
    element [i] of the tuple and has the [i]-th declared type and shape.
    [pos_size] is written in batch mode only. *)
Theorem init_values_follow_schema RawDataset_new query window induce_func spec configured
    (self : Dataset) :
  __init__ RawDataset_new query window induce_func spec configured = Ok self ->
  exists it,
    _iterator self = Some it
    /\ generator it = match induce_func with
                      | None => raw_flatten_generator
                      | Some _ => batchgraph_flatten_generator
                      end
    /\ length (output_types it) = length (output_shapes it)
    /\ map tensor_dtype (_values self) = output_types it
    /\ map tensor_shape (_values self) = output_shapes it
    /\ map tensor_pos (_values self) = seq 0 (length (output_types it))
    /\ (pos_size self = None <-> induce_func = None).
Proof.
  destruct induce_func as [f|].
  - destruct (init_batch_mode RawDataset_new query window f spec configured)
      as (types & shapes & _ & Hlen & Hinit).
    rewrite Hinit. intros [= <-].
    set (it := batch_iterator query types shapes).
    assert (Hit : length (output_types it) = length (output_shapes it)).
    { unfold it, batch_iterator; simpl. rewrite !length_app.
      case_bool_decide; simpl; lia. }
    exists it. split_and!; try done.
    + apply (get_next_dtypes it Hit).
    + apply (get_next_shapes it Hit).
    + apply (get_next_positions it Hit).
  - unfold __init__, _make_iterator. cbn [_induce_func init_attributes].
    destruct (_raw_flatten_types_and_shapes _) as [[types shapes]|e] eqn:Hdecl; [|done].
    intros [= <-].
    set (it := {| generator := raw_flatten_generator;
                  output_types := types; output_shapes := shapes |}).
    assert (Hit : length (output_types it) = length (output_shapes it)).
    { apply (raw_declare_loop_lengths _ _ ([], []) (types, shapes) Hdecl eq_refl). }
    exists it. split_and!; try done.
    + apply (get_next_dtypes it Hit).
    + apply (get_next_shapes it Hit).
    + apply (get_next_positions it Hit).
Qed.

Lemma init_values_follow_schema_witness :
  exists it,
    _iterator raw_chain_dataset = Some it
    /\ generator it = raw_flatten_generator
    /\ map tensor_dtype (_values raw_chain_dataset) = output_types it
    /\ map tensor_pos (_values raw_chain_dataset) = seq 0 (length (output_types it)).
Proof.
  destruct (init_values_follow_schema sample_RawDataset chain_query 5 None None None
              raw_chain_dataset eq_refl)
    as (it & Hit & Hgen & _ & Hdt & _ & Hpos & _).
  exists it. split_and!; assumption.
Defined.

(** ** get_egograph: modes and shape of the result *)

Lemma dict_getitem_raises {V} (d : PyDict V) (key : string) (e : exn) :
  dict_getitem d key = Raise e -> e = KeyError key.
Proof.
  induction d as [|[k v] d IH]; simpl; [by intros [= <-]|].
  by case_bool_decide.
Qed.

Lemma mapM_raises {A B} (f : A -> result B) (l : list A) (e : exn) :
  mapM f l = Raise e -> exists a, a ∈ l /\ f a = Raise e.
Proof.
  induction l as [|a l IH]; simpl; [done|].
  destruct (f a) as [b|e'] eqn:Hfa; simpl.
  - destruct (mapM f l) as [bs|e'']; simpl; [done|]. intros [= ->].
    destruct IH as (a' & Hin & Ha'); [done|].
    exists a'. split; [by apply list_elem_of_further | done].
  - intros [= ->]. exists a. split; [apply list_elem_of_here | done].
Qed.

Lemma type_and_feat_spec_raises (self : Dataset) (v : string) (e : exn) :
  type_and_feat_spec self v = Raise e -> e = UnknownAlias v.
Proof.
  unfold type_and_feat_spec, get_node.
  destruct (dag_lookup (_dag self) v); simpl; [done | by intros [= <-]].
Qed.

(** The [return] statement raises nothing but the errors of its lookups. *)
Lemma return_EgoGraph_raises (self : Dataset) (data_dict : PyDict Data) (source : string)
    (nbrs : Nbrs) (e : exn) :
  return_EgoGraph self data_dict source nbrs = Raise e ->
  (exists key, e = KeyError key) \/ (exists alias, e = UnknownAlias alias).
Proof.
  unfold return_EgoGraph.
  destruct (dict_getitem data_dict source) as [src|e1] eqn:H1; cbn [mbind result_bind].
  2: { intros [= <-]. left. eexists. by eapply dict_getitem_raises. }
  destruct (mapM (dict_getitem data_dict) (nbr_nodes nbrs)) as [nodes|e2] eqn:H2;
    cbn [mbind result_bind].
  2: { intros [= <-]. apply mapM_raises in H2 as (a & _ & Ha).
       left. eexists. by eapply dict_getitem_raises. }
  destruct (mapM (type_and_feat_spec self) (source :: nbr_nodes nbrs)) as [ns|e3] eqn:H3;
    cbn [mbind result_bind].
  2: { intros [= <-]. apply mapM_raises in H3 as (a & _ & Ha).
       right. eexists. by eapply type_and_feat_spec_raises. }
  destruct (mapM (dict_getitem data_dict) (nbr_edges nbrs)) as [edges|e4] eqn:H4;
    cbn [mbind result_bind].
  2: { intros [= <-]. apply mapM_raises in H4 as (a & _ & Ha).
       left. eexists. by eapply dict_getitem_raises. }
  destruct (mapM (type_and_feat_spec self) (nbr_edges nbrs)) as [es|e5] eqn:H5;
    cbn [mbind result_bind]; [done|].
  intros [= <-]. apply mapM_raises in H5 as (a & _ & Ha).
  right. eexists. by eapply type_and_feat_spec_raises.
Qed.

(** The automatic walk raises nothing but its ambiguity error. *)
Lemma automatic_neighbors_raises (pre : DagNode) (source : string) (node : DagNode)
    (acc : Nbrs) (e : exn) :
  automatic_neighbors pre source node acc = Raise e ->
  e = ValueError (multiple_downstreams_msg pre source).
Proof.
  revert node acc. fix IH 1.
  intros [a ed t sh d sp [|cur [|c2 pos]] neg] acc; cbn.
  - clear IH. done.
  - apply IH.
  - clear IH. by intros [= <-].
Qed.

(** The explicit walk raises the error of an alias lookup or its
    not-a-downstream error. *)
Lemma explicit_neighbors_raises (self : Dataset) (pre : DagNode) (neighbors : list string)
    (acc : Nbrs) (e : exn) :
  explicit_neighbors self pre neighbors acc = Raise e ->
  (exists alias, e = UnknownAlias alias)
  \/ (exists dag_node p, e = ValueError (not_downstream_msg dag_node p)).
Proof.
  revert pre acc. induction neighbors as [|nbr neighbors IH]; intros pre acc;
    cbn [explicit_neighbors]; [done|].
  unfold get_node. destruct (dag_lookup (_dag self) nbr) as [dag_node|];
    cbn [mbind result_bind].
  - destruct (node_in dag_node _); cbn [negb].
    + apply IH.
    + intros [= <-]. right. by eexists _, _.
  - intros [= <-]. left. by eexists.
Qed.

(** A [neighbors] argument that is false is never checked to be a list: an
    empty tuple, an empty string or [0] selects the automatic mode, as
    [None] does, and the call does not raise the not-a-list [ValueError]. *)
Theorem falsy_neighbors_is_automatic (self : Dataset) (source : string) :
  get_egograph self source (NbrOther false) = get_egograph self source NbrNone
  /\ get_egograph self source (NbrOther false) <> Raise (ValueError not_a_list_msg).
Proof.
  split; [reflexivity|].
  unfold get_egograph, get_node.
  destruct (dag_lookup (_dag self) source) as [source_node|];
    cbn [mbind result_bind truthy]; [|done].
  destruct (automatic_neighbors _ _ _ _) as [nbrs|e] eqn:Hauto; cbn [mbind result_bind].
  - intros Hret. apply return_EgoGraph_raises in Hret as [[k Hk]|[a Ha]]; done.
  - intros [= ->]. apply automatic_neighbors_raises in Hauto.
    injection Hauto as Hmsg. unfold multiple_downstreams_msg, not_a_list_msg in Hmsg.
    discriminate Hmsg.
Qed.

(** Every error [get_egograph] raises is the error of a lookup (an alias the
    query does not hold, a key the data dict does not hold) or one of its
    three [ValueError]s: not a list, in explicit mode on an argument that is
    no list; not a downstream, in explicit mode on a list; multiple
    downstreams, against the source alias, in automatic mode. *)
Theorem get_egograph_errors (self : Dataset) (source : string) (neighbors : PyNeighbors)
    (e : exn) :
  get_egograph self source neighbors = Raise e ->
  (exists key, e = KeyError key)
  \/ (exists alias, e = UnknownAlias alias)
  \/ (e = ValueError not_a_list_msg /\ neighbors = NbrOther true)
  \/ (exists dag_node p l,
        neighbors = NbrList l /\ l <> []
        /\ e = ValueError (not_downstream_msg dag_node p))
  \/ (truthy neighbors = false
      /\ exists source_node,
           get_node (_dag self) source = Ok source_node
           /\ e = ValueError (multiple_downstreams_msg source_node source)).
Proof.
  unfold get_egograph.
  destruct (get_node (_dag self) source) as [source_node|e0] eqn:Hsrc;
    cbn [mbind result_bind].
  2: { intros [= <-]. right; left. unfold get_node in Hsrc.
       destruct (dag_lookup _ _); [done|]. injection Hsrc as <-. by eexists. }
  destruct (truthy neighbors) eqn:Htruthy.
  - destruct neighbors as [|l|b]; try done.
    + destruct (explicit_neighbors _ _ _ _) as [nbrs|e1] eqn:Hwalk;
        cbn [mbind result_bind].
      * intros Hret. apply return_EgoGraph_raises in Hret as [?|?]; auto.
      * intros [= <-]. apply explicit_neighbors_raises in Hwalk as [?|(dn & p & ->)];
          [auto|].
        right; right; right; left. exists dn, p, l. split_and!; try done.
        intros ->. done.
    + simpl in Htruthy. subst b. cbn [mbind result_bind]. intros [= <-]. auto.
  - destruct (automatic_neighbors _ _ _ _) as [nbrs|e1] eqn:Hwalk;
      cbn [mbind result_bind].
    + intros Hret. apply return_EgoGraph_raises in Hret as [?|?]; auto.
    + intros [= <-]. apply automatic_neighbors_raises in Hwalk as ->.
      right; right; right; right. split; [done|]. by exists source_node.
Qed.

Lemma get_egograph_errors_witness :
  (exists key, ValueError "hop2 is not the downstream of src." = KeyError key)
  \/ (exists alias, ValueError "hop2 is not the downstream of src." = UnknownAlias alias)
  \/ (ValueError "hop2 is not the downstream of src." = ValueError not_a_list_msg
      /\ NbrList ["hop2"] = NbrOther true)
  \/ (exists dag_node p l,
        NbrList ["hop2"] = NbrList l /\ l <> []
        /\ ValueError "hop2 is not the downstream of src."
           = ValueError (not_downstream_msg dag_node p))
  \/ (truthy (NbrList ["hop2"]) = false
      /\ exists source_node,
           get_node (_dag raw_chain_dataset) "src" = Ok source_node
           /\ ValueError "hop2 is not the downstream of src."
              = ValueError (multiple_downstreams_msg source_node "src")).
Proof.
  apply (get_egograph_errors raw_chain_dataset "src" (NbrList ["hop2"])). reflexivity.
Defined.

Lemma mapM_length {A B} (f : A -> result B) (l : list A) (bs : list B) :
  mapM f l = Ok bs -> length bs = length l.
Proof.
  revert bs. induction l as [|a l IH]; intros bs; simpl; [by intros [= <-]|].
  destruct (f a) as [b|]; simpl; [|done].
  destruct (mapM f l) as [bs'|]; simpl; [|done].
  intros [= <-]. simpl. by rewrite (IH bs').
Qed.

Lemma explicit_neighbors_counts (self : Dataset) (pre : DagNode) (neighbors : list string)
    (acc out : Nbrs) :
  explicit_neighbors self pre neighbors acc = Ok out ->
  length (nbr_nodes out) + length (nbr_edges out)
  = length (nbr_nodes acc) + length (nbr_edges acc) + length neighbors
  /\ length (nbr_nums out) + length (nbr_nodes acc)
     = length (nbr_nums acc) + length (nbr_nodes out).
Proof.
  revert pre acc. induction neighbors as [|nbr neighbors IH]; intros pre acc;
    cbn [explicit_neighbors].
  - intros [= <-]. simpl. lia.
  - destruct (get_node (_dag self) nbr) as [dag_node|]; cbn [mbind result_bind]; [|done].
    destruct (node_in dag_node _); cbn [negb]; [|done].
    intros Hwalk. apply IH in Hwalk as [H1 H2]. revert H1 H2.
    destruct (is_TraverseEdgeDagNode pre); simpl; rewrite ?length_app; simpl; lia.
Qed.

Lemma automatic_neighbors_counts (pre : DagNode) (source : string) (node : DagNode)
    (acc out : Nbrs) :
  automatic_neighbors pre source node acc = Ok out ->
  length (nbr_nums out) + length (nbr_nodes acc)
  = length (nbr_nums acc) + length (nbr_nodes out).
Proof.
  revert node acc. fix IH 1.
  intros [a ed t sh d sp [|cur [|c2 pos]] neg] acc; cbn.
  - clear IH. intros [= <-]. lia.
  - intros Hwalk. apply IH in Hwalk. clear IH. revert Hwalk.
    destruct (is_TraverseEdgeDagNode cur); simpl; rewrite ?length_app; simpl; lia.
  - clear IH. done.
Qed.

(** Whatever the mode, an EgoGraph that [get_egograph] returns has one node
    schema for the source and one per neighbor node, one neighbor count per
    neighbor node and one edge schema per neighbor edge; in explicit mode
    its neighbor nodes and edges together are as many as the aliases
    given. *)
Theorem egograph_counts (self : Dataset) (source : string) (neighbors : PyNeighbors)
    (g : EgoGraphObj) :
  get_egograph self source neighbors = Ok g ->
  length (ego_node_schema g) = Datatypes.S (length (ego_nbr_nodes g))
  /\ length (ego_nbr_nums g) = length (ego_nbr_nodes g)
  /\ length (ego_edge_schema g) = length (ego_nbr_edges g)
  /\ (forall l, neighbors = NbrList l -> l <> [] ->
        length (ego_nbr_nodes g) + length (ego_nbr_edges g) = length l).
Proof.
  unfold get_egograph.
  destruct (get_node (_dag self) source) as [source_node|]; cbn [mbind result_bind];
    [|done].
  destruct (if truthy neighbors then _ else _) as [nbrs|] eqn:Hwalk;
    cbn [mbind result_bind]; [|done].
  unfold return_EgoGraph.
  destruct (dict_getitem (get_data_dict self) source) as [src|];
    cbn [mbind result_bind]; [|done].
  destruct (mapM (dict_getitem (get_data_dict self)) (nbr_nodes nbrs))
    as [nodes|] eqn:Hnodes; cbn [mbind result_bind]; [|done].
  destruct (mapM (type_and_feat_spec self) (source :: nbr_nodes nbrs))
    as [ns|] eqn:Hns; cbn [mbind result_bind]; [|done].
  destruct (mapM (dict_getitem (get_data_dict self)) (nbr_edges nbrs))
    as [edges|] eqn:Hedges; cbn [mbind result_bind]; [|done].
  destruct (mapM (type_and_feat_spec self) (nbr_edges nbrs))
    as [es|] eqn:Hes; cbn [mbind result_bind]; [|done].
  intros [= <-]. cbn [ego_node_schema ego_nbr_nodes ego_nbr_nums ego_edge_schema
                      ego_nbr_edges].
  apply mapM_length in Hnodes, Hns, Hedges, Hes. cbn [length] in Hns.
  assert (Hnums : length (nbr_nums nbrs) = length (nbr_nodes nbrs)
                  /\ forall l, neighbors = NbrList l -> l <> [] ->
                       length (nbr_nodes nbrs) + length (nbr_edges nbrs) = length l).
  { destruct (truthy neighbors) eqn:Htruthy.
    - destruct neighbors as [|l|b]; try done.
      apply explicit_neighbors_counts in Hwalk as [H1 H2]. simpl in H1, H2.
      split; [lia|]. intros l' [= <-] _. lia.
    - apply automatic_neighbors_counts in Hwalk. simpl in Hwalk.
      split; [lia|]. intros l -> Hne. simpl in Htruthy.
      by rewrite bool_decide_false in Htruthy. }
  destruct Hnums as [Hnums Hhops]. split_and!; try lia.
  intros l Hl Hne. rewrite Hnodes, Hedges. by apply Hhops.
Qed.

Lemma egograph_counts_witness :
  exists g,
    get_egograph raw_fork_dataset "src" (NbrList ["e"; "dst"]) = Ok g
    /\ length (ego_node_schema g) = Datatypes.S (length (ego_nbr_nodes g))
    /\ length (ego_nbr_nodes g) + length (ego_nbr_edges g) = 2.
Proof.
  eexists. split; [vm_compute; reflexivity|].
  destruct (egograph_counts raw_fork_dataset "src" (NbrList ["e"; "dst"]) _ eq_refl)
    as (Hns & _ & _ & Hhops).
  split; [exact Hns | by apply (Hhops ["e"; "dst"])].
Defined.

Lemma all_vertex_hops (pre : DagNode) (nodes : list DagNode) :
  is_TraverseEdgeDagNode pre = false ->
  Forall (fun h => is_TraverseEdgeDagNode h = false) nodes ->
  node_hops pre nodes = nodes /\ edge_hops pre nodes = [].
Proof.
  intros Hpre Hall. revert pre Hpre.
  induction Hall as [|h nodes Hh _ IH]; intros pre Hpre; [done|].
  rewrite node_hops_cons, edge_hops_cons, Hpre.
  destruct (IH h Hh) as [-> ->]. done.
Qed.

Lemma filter_all_vertices (nodes : list DagNode) :
  Forall (fun h => is_TraverseEdgeDagNode h = false) nodes ->
  filter (fun n => is_TraverseEdgeDagNode n = false) nodes = nodes
  /\ filter (fun n => is_TraverseEdgeDagNode n = true) nodes = [].
Proof.
  induction 1 as [|h nodes Hh _ [IH1 IH2]]; [done|]. rewrite !filter_cons.
  rewrite decide_True by done. rewrite decide_False by (by rewrite Hh).
  by rewrite IH1, IH2.
Qed.

Lemma pos_chain_is_explicit_chain (dag : Dag) (node : DagNode) (hops : list DagNode)
    (last : DagNode) :
  pos_chain node hops last ->
  Forall (fun h => get_node dag (get_alias h) = Ok h) hops ->
  explicit_chain dag node (map get_alias hops) hops.
Proof.
  induction 1 as [node|node cur hops last Hcur _ IH]; intros Hreg; [constructor|].
  cbn [map]. apply explicit_chain_cons.
  - exact (Forall_inv Hreg).
  - rewrite Hcur. unfold node_in. cbn [app existsb]. by rewrite bool_decide_true.
  - apply IH. exact (Forall_inv_tail Hreg).
Qed.

(** On a chain of vertices, each the single positive downstream of the one
    before it, that starts at a vertex source and ends on a node without
    positive downstream, naming the chain in [neighbors] gives what the
    automatic mode gives. *)
Theorem explicit_agrees_with_automatic_on_vertex_chain (self : Dataset) (source : string)
    (source_node : DagNode) (hops : list DagNode) (last : DagNode) :
  get_node (_dag self) source = Ok source_node ->
  is_TraverseEdgeDagNode source_node = false ->
  pos_chain source_node hops last ->
  pos_downstreams last = [] ->
  hops <> [] ->
  Forall (fun h => is_TraverseEdgeDagNode h = false) hops ->
  Forall (fun h => get_node (_dag self) (get_alias h) = Ok h) hops ->
  get_egograph self source (NbrList (map get_alias hops))
  = get_egograph self source NbrNone.
Proof.
  intros Hsrc Hvertex Hchain Hend Hne Hall Hreg.
  unfold get_egograph. rewrite Hsrc. cbn [mbind result_bind].
  assert (Htrue : truthy (NbrList (map get_alias hops)) = true).
  { unfold truthy. rewrite bool_decide_false; [done|]. by destruct hops. }
  rewrite Htrue. cbn [truthy].
  rewrite (explicit_neighbors_chain self _ _ _ _
             (pos_chain_is_explicit_chain _ _ _ _ Hchain Hreg)).
  rewrite (automatic_neighbors_chain _ _ _ _ _ _ Hchain).
  rewrite automatic_neighbors_end by done.
  destruct (all_vertex_hops _ _ Hvertex Hall) as [-> ->].
  destruct (filter_all_vertices _ Hall) as [-> ->]. reflexivity.
Qed.

Lemma explicit_agrees_with_automatic_on_vertex_chain_witness :
  get_egograph raw_chain_dataset "src" (NbrList ["hop1"; "hop2"])
  = get_egograph raw_chain_dataset "src" NbrNone.
Proof.
  apply (explicit_agrees_with_automatic_on_vertex_chain raw_chain_dataset "src"
           n_src_chain [n_hop1; n_hop2] n_hop2).
  - reflexivity.
  - reflexivity.
  - eapply pos_chain_cons; [reflexivity|].
    eapply pos_chain_cons; [reflexivity | constructor].
  - reflexivity.
  - done.
  - repeat constructor.
  - repeat constructor.
Defined.

(** ** The generators: errors, empty pulls and tuple lengths *)

Lemma pulls_raised {S V} (body : S -> result (list V) * S) (s s1 : S) (e : exn)
    (n : nat) :
  body s = (Raise e, s1) ->
  e <> OutOfRangeError ->
  pulls (generator_next body) (Datatypes.S n) (Running s)
  = (Raised e :: replicate n StopIteration, Finished s1).
Proof.
  intros Hbody He. cbn [pulls generator_next]. rewrite Hbody.
  destruct e; try done; by rewrite pulls_finished.
Qed.

(** An exception of the loop body other than [OutOfRangeError] is not
    caught: the [next()] that meets it raises it, and the generator is
    finished all the same, so every later [next()] ends with
    [StopIteration] and the source is not pulled again. *)
Theorem generator_propagates_other_errors {S G V} (src : Source S G V)
    (ops : BatchGraphOps G V) (self : Dataset) (s s1 : S) (e : exn) (n : nat) :
  generator_body src ops self s = (Raise e, s1) ->
  e <> OutOfRangeError ->
  pulls (dataset_generator src ops self) (Datatypes.S n) (Running s)
  = (Raised e :: replicate n StopIteration, Finished s1).
Proof. intros Hbody He. rewrite dataset_generator_next. by apply pulls_raised. Qed.

Lemma generator_propagates_other_errors_witness :
  pulls (dataset_generator empty_batch_source (spec_BatchGraphOps raw_chain_dataset)
           raw_chain_dataset) 3 (Running 0)
  = ([Raised TypeError; StopIteration; StopIteration], Finished 1).
Proof.
  apply (generator_propagates_other_errors empty_batch_source
           (spec_BatchGraphOps raw_chain_dataset) raw_chain_dataset 0 1 TypeError 2);
    done.
Defined.

(** In batch mode a pull that gives an empty list of subgraphs makes the
    generator raise [IndexError] (at [subgraphs[0]]): it yields no empty
    tuple, does not treat the pull as exhaustion, and is finished after it,
    whatever the negative subgraphs are. *)
Theorem empty_subgraphs_raise_IndexError {S G V} (src : Source S G V)
    (ops : BatchGraphOps G V) (self : Dataset) (f : InduceFunc) (s s1 : S)
    (neg : option (list G)) (n : nat) :
  _induce_func self = Some f ->
  get_subgraphs src (Some f) s = (Ok ([], neg), s1) ->
  pulls (dataset_generator src ops self) (Datatypes.S n) (Running s)
  = (Raised IndexError :: replicate n StopIteration, Finished s1).
Proof.
  intros Hbatch Hpull. rewrite dataset_generator_next. apply pulls_raised; [|done].
  unfold generator_body, batchgraph_flatten_body. by rewrite Hbatch, Hpull.
Qed.

Lemma empty_subgraphs_raise_IndexError_witness :
  pulls (dataset_generator empty_batch_source (spec_BatchGraphOps homo_dataset)
           homo_dataset) 2 (Running 0)
  = ([Raised IndexError; StopIteration], Finished 1).
Proof.
  apply (empty_subgraphs_raise_IndexError empty_batch_source
           (spec_BatchGraphOps homo_dataset) homo_dataset sample_induce_func 0 1 None 1);
    reflexivity.
Defined.

(** The tuple the batch generator builds from a pull of at least one
    subgraph: the flatten of the subgraphs, followed by the flatten of the
    negative subgraphs when there are any, both by the class of the first
    subgraph. *)
Lemma batch_body_tuple {S G V} (src : Source S G V) (ops : BatchGraphOps G V)
    (self : Dataset) (s s1 : S) (g0 : G) (gs : list G) (neg : option (list G)) :
  get_subgraphs src (_induce_func self) s = (Ok (g0 :: gs, neg), s1) ->
  batchgraph_flatten_body src ops self s
  = (Ok (flatten_as ops self g0 (g0 :: gs)
         ++ match neg with
            | Some neg_subgraphs => flatten_as ops self g0 neg_subgraphs
            | None => []
            end), s1).
Proof.
  intros Hpull. unfold batchgraph_flatten_body, flatten_as. rewrite Hpull.
  destruct (isinstance_SubGraph ops g0), neg; by rewrite ?app_nil_r.
Qed.

(** Suppose the flatten call of the class in use gives, on any list of
    subgraphs, as many arrays as one declared block has fields
    ([pos_size]).  Then the tuple yielded for a pull has the declared length
    exactly when the pull comes with negative subgraphs if and only if the
    query lists the negative-destination alias (or the block is empty). *)
Theorem batch_tuple_length {S G V} (src : Source S G V) (ops : BatchGraphOps G V)
    RawDataset_new query window f spec configured (self : Dataset) (k : nat)
    (s s1 : S) (g0 : G) (gs : list G) (neg : option (list G)) :
  __init__ RawDataset_new query window (Some f) spec configured = Ok self ->
  pos_size self = Some k ->
  get_subgraphs src (Some f) s = (Ok (g0 :: gs, neg), s1) ->
  (forall graphs, length (flatten_as ops self g0 graphs) = k) ->
  exists it t,
    _iterator self = Some it
    /\ dataset_generator src ops self (Running s) = (Yielded t, Running s1)
    /\ (length t = length (output_types it)
        <-> (is_Some neg <-> SubKeys.NEG_DST ∈ list_alias query) \/ k = 0).
Proof.
  destruct (init_batch_mode RawDataset_new query window f spec configured)
    as (types & shapes & _ & _ & Hinit).
  rewrite Hinit. intros [= <-]. cbn [pos_size set_iterator set_pos_size].
  intros [= <-] Hpull Hflat.
  set (self := set_iterator _ _) in *.
  exists (batch_iterator query types shapes). eexists. split; [done|]. split.
  - change (dataset_generator src ops self)
      with (generator_next (batchgraph_flatten_body src ops self)).
    unfold generator_next.
    by rewrite (batch_body_tuple src ops self s s1 g0 gs neg Hpull).
  - unfold batch_iterator; cbn [output_types]. rewrite !length_app, Hflat.
    destruct neg as [neg_subgraphs|]; case_bool_decide as Hneg;
      rewrite ?Hflat; cbn [length]; split.
    + intros _. left. split; [done | by eexists].
    + done.
    + intros Hlen. right. lia.
    + intros [[H1 _]| ->]; [|done]. exfalso. apply Hneg, H1. by eexists.
    + intros Hlen. right. lia.
    + intros [[_ H2]| ->]; [|done]. by destruct (H2 Hneg).
    + intros _. left. split; [by intros [? ?] | done].
    + done.
Qed.

Lemma batch_tuple_length_witness :
  exists it t,
    _iterator homo_dataset = Some it
    /\ dataset_generator (sample_source homo_dataset false)
         (spec_BatchGraphOps homo_dataset) homo_dataset (Running 0)
       = (Yielded t, Running 1)
    /\ length t = length (output_types it).
Proof.
  destruct (batch_tuple_length (sample_source homo_dataset false)
              (spec_BatchGraphOps homo_dataset)
              sample_RawDataset homo_query 5 sample_induce_func
              (Some struct_label_spec) None homo_dataset 7 0 1
              {| is_SubGraph := true |} [ {| is_SubGraph := true |} ] None
              eq_refl eq_refl eq_refl)
    as (it & t & Hit & Hgen & Hlen).
  - intros graphs. reflexivity.
  - exists it, t. split_and!; [exact Hit | exact Hgen |].
    apply Hlen. left. split.
    + by intros [? ?].
    + intros Hin. exfalso. revert Hin. by_decide.
Defined.

(** ** Sizes of the declarations *)

Lemma np_select_length {A} (xs : list A) (mask : list bool) :
  length xs = length mask ->
  length (np_select xs mask) = length (filter (fun b => b = true) mask).
Proof.
  revert mask. induction xs as [|x xs IH]; intros [|b mask] Hlen; simplify_eq/=;
    [done|].
  rewrite filter_cons. destruct b; simpl; rewrite ?decide_True, ?decide_False by done;
    simpl; by rewrite IH.
Qed.

Lemma mask_list_length (m : Masks) : length (mask_list m) = 10.
Proof. by destruct m as [[fm im] sm]. Qed.

Lemma selected_le (m : Masks) : selected m <= 10.
Proof.
  unfold selected. rewrite <- (mask_list_length m). apply length_filter.
Qed.

Lemma masked_fields_length (rds : RawDataset) (d : Decoder) (is_edge is_sparse : bool) :
  length (masked_fields rds d is_edge is_sparse)
  = selected (get_mask rds d is_edge is_sparse).
Proof.
  unfold masked_fields, selected. apply np_select_length.
  by rewrite mask_list_length.
Qed.

(** [_data_types_and_shapes] returns as many types as shapes: one of each
    per slot the mask selects, at most ten; a mask that selects nothing
    gives two empty lists. *)
Theorem data_types_and_shapes_count (self : Dataset) (d : Decoder)
    (is_edge is_sparse : bool) :
  length (fst (_data_types_and_shapes self d is_edge is_sparse))
  = selected (get_mask (_rds self) d is_edge is_sparse)
  /\ length (snd (_data_types_and_shapes self d is_edge is_sparse))
     = selected (get_mask (_rds self) d is_edge is_sparse)
  /\ selected (get_mask (_rds self) d is_edge is_sparse) <= 10
  /\ (selected (get_mask (_rds self) d is_edge is_sparse) = 0 ->
      _data_types_and_shapes self d is_edge is_sparse = ([], [])).
Proof.
  rewrite data_types_and_shapes_fields. cbn [fst snd].
  rewrite !length_map, masked_fields_length.
  split_and!; try done; [apply selected_le|].
  intros Hnone. rewrite <- masked_fields_length in Hnone.
  by destruct (masked_fields _ _ _ _).
Qed.

Lemma flat_map_length_bounds {A B} (f : A -> list B) (l : list A) (lo hi : nat) :
  (forall a, lo <= length (f a) <= hi) ->
  lo * length l <= length (flat_map f l) <= hi * length l.
Proof.
  intros Hf. induction l as [|a l IH]; simpl; [lia|].
  rewrite length_app. specialize (Hf a). lia.
Qed.

(** The number of fields a dataset built in batch mode declares: once or,
    when the query lists the negative-destination alias, twice the block of
    one field per configured edge type, the selected fields plus one per
    node type of the query, and one field per additional key.  Each node
    type brings between one and eleven fields. *)
Theorem batch_declaration_size RawDataset_new query window f spec configured :
  exists self it,
    __init__ RawDataset_new query window (Some f) spec configured = Ok self
    /\ _iterator self = Some it
    /\ length (output_types it)
       = (if bool_decide (SubKeys.NEG_DST ∈ list_alias query) then 2 else 1)
         * (length (edge_types self)
            + length (flat_map (node_type_fields self) (node_types query))
            + length (_additional_keys self))
    /\ length (node_types query)
       <= length (flat_map (node_type_fields self) (node_types query))
       <= 11 * length (node_types query).
Proof.
  destruct (init_batch_mode RawDataset_new query window f spec configured)
    as (types & shapes & Hblock & _ & Hinit).
  destruct (batch_block_length _ (init_attributes_keys RawDataset_new query window
              (Some f) spec configured)) as (t & sh & Hb & Hlen).
  rewrite Hblock in Hb. simplify_eq.
  set (self0 := init_attributes RawDataset_new query window (Some f) spec configured)
    in *.
  set (self := set_iterator (set_pos_size self0 (length t)) (batch_iterator query t sh))
    in *.
  exists self, (batch_iterator query t sh).
  split; [exact Hinit|]. split; [reflexivity|].
  change (node_type_fields self) with (node_type_fields self0).
  change (edge_types self) with (edge_types self0).
  change (_additional_keys self) with (_additional_keys self0).
  change (node_types (_dag self0)) with (node_types query) in Hlen.
  split.
  - unfold batch_iterator; cbn [output_types]. rewrite length_app.
    case_bool_decide; cbn [length]; lia.
  - pose proof (flat_map_length_bounds (node_type_fields self0) (node_types query) 1 11)
      as Hbounds.
    rewrite Nat.mul_1_l in Hbounds. apply Hbounds. intros n.
    unfold node_type_fields. rewrite length_app, masked_fields_length. cbn [length].
    pose proof (selected_le (get_mask (_rds self0)
                  (graph_get_node_decoder (_dag self0) n) false false)).
    lia.
Qed.

(** ** get_batchgraph: what it counts and where its tensors come from *)

(** [get_batchgraph] counts the entries of the two type lists, repetitions
    included: the graph is heterogeneous exactly when one of the lists has
    more than one entry, so one edge type configured twice gives a
    [HeteroBatchGraph] with two edge schemas although there is a single
    distinct edge type. *)
Theorem batchgraph_class_counts_entries (self : Dataset) (n0 : DagNode) (k : nat)
    (alias : string) (g : BatchGraphObj) :
  get_node (_dag self) SubKeys.POS_SRC = Ok n0 ->
  pos_size self = Some k ->
  get_batchgraph self alias = Ok (Some g) ->
  (bg_class g = HeteroBatchGraph
   <-> 1 < length (node_types (_dag self)) \/ 1 < length (edge_types self))
  /\ (forall e,
        edge_types self = [e; e] ->
        distinct_count (edge_types self) = 1
        /\ bg_class g = HeteroBatchGraph
        /\ bg_edge_schema g = Some [(e, None); (e, None)]).
Proof.
  intros Hsrc Hk Hg.
  pose proof (batchgraph_schema_ok self n0 Hsrc) as Hschema.
  pose proof (several_types_spec self) as Hseveral.
  destruct (several_types self) eqn:Hcond;
    destruct (get_batchgraph_returns self k _ _ _ alias g Hschema Hk Hg)
      as (Hclass & Hns & Hes).
  - split; [split; [intros _; by apply Hseveral | done]|].
    intros e He. rewrite Hes, He. split_and!; try done.
    unfold distinct_count. simpl.
    destruct (decide_rel elem_of e [e]) as [_|Hnot]; [done|].
    exfalso. apply Hnot, list_elem_of_here.
  - split.
    + rewrite Hclass. split; [done|]. intros Hlt. by apply Hseveral in Hlt.
    + intros e He. exfalso.
      assert (Hfalse : false = true); [|done].
      apply Hseveral. right. rewrite He. simpl. lia.
Qed.

Lemma batchgraph_class_counts_entries_witness :
  exists g,
    get_batchgraph twice_configured_dataset "src" = Ok (Some g)
    /\ distinct_count (edge_types twice_configured_dataset) = 1
    /\ bg_class g = HeteroBatchGraph.
Proof.
  eexists. split; [vm_compute; reflexivity|].
  destruct (batchgraph_class_counts_entries twice_configured_dataset n_src_homo 7 "src" _
              eq_refl eq_refl eq_refl) as [_ Htwice].
  destruct (Htwice "i-i" eq_refl) as (Hone & Hclass & _). by split.
Defined.

Lemma seq_take_drop (n m : nat) :
  take n (seq 0 (n + m)) = seq 0 n /\ drop n (seq 0 (n + m)) = seq n m.
Proof.
  rewrite seq_app. split.
  - rewrite take_app_length'; [done | by rewrite length_seq].
  - rewrite drop_app_length'; [done | by rewrite length_seq].
Qed.

(** Building a dataset in batch mode and asking for its graphs: the
    positive graph holds the elements 0 to [pos_size - 1] of the tuple; with
    the negative-destination alias in the query the negative graph holds
    the elements from [pos_size] on, as many again, and without it the
    positive graph holds the whole tuple. *)
Theorem batchgraph_tensor_positions RawDataset_new query window f spec configured
    (n0 : DagNode) :
  get_node query SubKeys.POS_SRC = Ok n0 ->
  exists self k pos,
    __init__ RawDataset_new query window (Some f) spec configured = Ok self
    /\ pos_size self = Some k
    /\ get_batchgraph self SubKeys.POS_SRC = Ok (Some pos)
    /\ map tensor_pos (bg_tensors pos) = seq 0 k
    /\ (SubKeys.NEG_DST ∈ list_alias query ->
        exists neg,
          get_batchgraph self SubKeys.NEG_DST = Ok (Some neg)
          /\ map tensor_pos (bg_tensors neg) = seq k k
          /\ bg_tensors pos ++ bg_tensors neg = _values self)
    /\ (SubKeys.NEG_DST ∉ list_alias query ->
        get_batchgraph self SubKeys.NEG_DST = Ok None
        /\ bg_tensors pos = _values self).
Proof.
  intros Hsrc.
  destruct (init_batch_mode RawDataset_new query window f spec configured)
    as (types & shapes & _ & Hlen & Hinit).
  set (it := batch_iterator query types shapes) in *.
  set (self := set_iterator _ it) in *.
  assert (Hit : length (output_types it) = length (output_shapes it)).
  { unfold it, batch_iterator; simpl. rewrite !length_app.
    case_bool_decide; simpl; lia. }
  pose proof (get_next_positions it Hit) as Hpos.
  change (get_next it) with (_values self) in Hpos.
  destruct (batchgraph_schema self) as [[[graph node_schema] edge_schema]|e] eqn:Hschema.
  2: { rewrite (batchgraph_schema_ok self n0 Hsrc) in Hschema. done. }
  assert (Hfront : get_batchgraph self SubKeys.POS_SRC
            = Ok (Some (front_graph self (length types) graph node_schema edge_schema))).
  { by rewrite (get_batchgraph_dispatch self (length types) _ _ _ _ Hschema eq_refl). }
  assert (Hrest : get_batchgraph self SubKeys.NEG_DST
            = Ok (if bool_decide (SubKeys.NEG_DST ∈ list_alias query)
                  then Some (rest_graph self (length types) graph node_schema edge_schema)
                  else None)).
  { by rewrite (get_batchgraph_dispatch self (length types) _ _ _ _ Hschema eq_refl). }
  exists self, (length types), (front_graph self (length types) graph node_schema edge_schema).
  split_and!; try done.
  - unfold front_graph; cbn [bg_tensors].
    change (map tensor_pos ?l) with (tensor_pos <$> l). rewrite fmap_take.
    change (tensor_pos <$> _values self) with (map tensor_pos (_values self)).
    rewrite Hpos. unfold it, batch_iterator; cbn [output_types]. rewrite length_app.
    apply seq_take_drop.
  - intros Hneg. eexists. split; [|split].
    + rewrite Hrest. by rewrite bool_decide_true.
    + unfold rest_graph; cbn [bg_tensors].
      change (map tensor_pos ?l) with (tensor_pos <$> l). rewrite fmap_drop.
      change (tensor_pos <$> _values self) with (map tensor_pos (_values self)).
      rewrite Hpos. unfold it, batch_iterator; cbn [output_types]. rewrite length_app.
      rewrite bool_decide_true by done. apply seq_take_drop.
    + apply take_drop.
  - intros Hneg. split.
    + rewrite Hrest. by rewrite bool_decide_false.
    + unfold front_graph; cbn [bg_tensors]. apply take_ge.
      rewrite <- (length_map tensor_pos), Hpos, length_seq.
      unfold it, batch_iterator; cbn [output_types]. rewrite length_app.
      rewrite bool_decide_false by done. simpl. lia.
Qed.

Lemma batchgraph_tensor_positions_witness :
  exists self k pos neg,
    __init__ sample_RawDataset chain_query 5 (Some sample_induce_func)
             (Some struct_label_spec) None = Ok self
    /\ pos_size self = Some k
    /\ get_batchgraph self "src" = Ok (Some pos)
    /\ get_batchgraph self "neg_dst" = Ok (Some neg)
    /\ map tensor_pos (bg_tensors pos) = seq 0 k
    /\ map tensor_pos (bg_tensors neg) = seq k k.
Proof.
  destruct (batchgraph_tensor_positions sample_RawDataset chain_query 5
              sample_induce_func (Some struct_label_spec) None n_src_chain eq_refl)
    as (self & k & pos & Hinit & Hk & Hpos & Hfront & Hneg & _).
  destruct Hneg as (neg & Hneg & Hrest & _); [by_decide|].
  exists self, k, pos, neg. split_and!; assumption.
Defined.

(** ** get_egograph: the two modes on an edge node *)

(** A vertex source whose single positive downstream is an edge node: named
    in [neighbors], the edge node is filed as a neighbor node, with a
    neighbor count, because its predecessor is a vertex; found by the
    automatic mode, it is filed as a neighbor edge, without a count,
    because it is an edge node itself. *)
Theorem edge_node_filed_by_mode (self : Dataset) (source : string)
    (source_node cur : DagNode) :
  get_node (_dag self) source = Ok source_node ->
  is_TraverseEdgeDagNode source_node = false ->
  pos_downstreams source_node = [cur] ->
  pos_downstreams cur = [] ->
  is_TraverseEdgeDagNode cur = true ->
  get_node (_dag self) (get_alias cur) = Ok cur ->
  get_egograph self source (NbrList [get_alias cur])
  = return_EgoGraph self (get_data_dict self) source
      {| nbr_nodes := [get_alias cur]; nbr_edges := [];
         nbr_nums := [shape_last (shape cur)] |}
  /\ get_egograph self source NbrNone
     = return_EgoGraph self (get_data_dict self) source
         {| nbr_nodes := []; nbr_edges := [get_alias cur]; nbr_nums := [] |}.
Proof.
  intros Hsrc Hvertex Hpos Hend Hedge Hreg.
  assert (Hchain : pos_chain source_node [cur] cur).
  { eapply pos_chain_cons; [done | constructor]. }
  unfold get_egograph. rewrite Hsrc. cbn [mbind result_bind]. split.
  - change (truthy (NbrList [get_alias cur])) with true. cbn iota.
    rewrite (explicit_neighbors_chain self _ _ [cur] _
               (pos_chain_is_explicit_chain _ _ _ _ Hchain
                  (Forall_cons _ _ _ Hreg (Forall_nil _)))).
    rewrite node_hops_cons, edge_hops_cons, Hvertex. reflexivity.
  - cbn [truthy]. rewrite (automatic_neighbors_chain _ _ _ _ _ _ Hchain).
    rewrite automatic_neighbors_end by done.
    rewrite !filter_cons, !filter_nil.
    rewrite decide_False by (by rewrite Hedge). rewrite decide_True by done.
    reflexivity.
Qed.

Lemma edge_node_filed_by_mode_witness :
  get_egograph raw_edge_leaf_dataset "src" (NbrList ["e"])
  = return_EgoGraph raw_edge_leaf_dataset (get_data_dict raw_edge_leaf_dataset) "src"
      {| nbr_nodes := ["e"]; nbr_edges := []; nbr_nums := [6] |}
  /\ get_egograph raw_edge_leaf_dataset "src" NbrNone
     = return_EgoGraph raw_edge_leaf_dataset (get_data_dict raw_edge_leaf_dataset) "src"
         {| nbr_nodes := []; nbr_edges := ["e"]; nbr_nums := [] |}.
Proof.
  apply (edge_node_filed_by_mode raw_edge_leaf_dataset "src" n_src_leaf n_e_leaf);
    reflexivity.
Defined.
